(** * Service and instance registration at start-up (core/registry/bootstrap.go)

    A shallow embedding of [RegisterMicroservice] and
    [RegisterMicroserviceInstances].  The two Go functions read and write
    package-level variables (the runtime identity, the configuration, the
    endpoint override, the self-instance cache) and call the registry through
    the [Registrator] and [ServiceDiscovery] interfaces.  The embedding keeps
    those variables in one record, [World], threads it through a small
    state-and-error monad, and records every interface call, with what was
    handed over and what came back, in a trace.

    Logging is left out: it never decides a branch. *)

From stdpp Require Import base option list strings gmap.

Open Scope string_scope.
Open Scope list_scope.

(** ** Values *)

(** A Go [error] value.  [errors.New] gives every error its own identity, so
    the package's own sentinel is a constructor of its own and never equal to
    an error a collaborator hands back. *)
Inductive error : Type :=
  | errEmptyServiceIDFromRegistry
  | errCollaborator (msg : string).

(** A Go [(value, error)] pair; the code never looks at the value when the
    error is not nil. *)
Inductive result (A : Type) : Type :=
  | Ok (a : A)
  | Err (e : error).
Arguments Ok {A} a.
Arguments Err {A} e.

(** A Go [map[string]string]: [None] is the nil map. *)
Abbreviation gomap := (option (gmap string string)).

(** The text of [errEmptyServiceIDFromRegistry.Error()]. *)
Definition error_text (e : error) : string :=
  match e with
  | errEmptyServiceIDFromRegistry => "got empty serviceID from registry"
  | errCollaborator msg => msg
  end.

(** Modelled from the spec: [common.ScopeFull] is declared in package
    [common], outside this file; the spec names the scope "full". *)
Definition ScopeFull : string := "full".

(** Modelled from the spec: [common.TRUE], declared in package [common]; the
    spec writes allowCrossApp=true. *)
Definition TRUE : string := "true".

(** Modelled from the spec: [common.FALSE], declared in package [common]; the
    spec writes allowCrossApp=false. *)
Definition FALSE : string := "false".

(** ** Descriptors *)

(** [model.ServicePathStruct], an entry of the configured service paths. *)
Record ServicePathStruct : Type := {
  cfg_Path : string;
  cfg_Property : gmap string string }.

(** [registry.ServicePath]. *)
Record ServicePath : Type := {
  Path : string;
  Property : gmap string string }.

(** What [metadata.NewFramework] returns. *)
Record MetadataFramework : Type := {
  mf_Name : string;
  mf_Version : string;
  mf_Register : string }.

(** [registry.Framework]. *)
Record Framework : Type := {
  fw_Version : string;
  fw_Name : string }.

Record MicroService : Type := {
  ms_ServiceID : string;
  ms_AppID : string;
  ms_ServiceName : string;
  ms_Version : string;
  ms_Paths : list ServicePath;
  ms_Environment : string;
  ms_Status : string;
  ms_Level : string;
  ms_Schemas : list string;
  ms_Framework : Framework;
  ms_RegisterBy : string;
  ms_Metadata : gmap string string;
  ms_Alias : string }.

Record DataCenterInfo : Type := {
  dci_Name : string;
  dci_Region : string;
  dci_AvailableZone : string }.

(** [registry.MicroServiceInstance]; [msi_DataCenterInfo] is a pointer in the
    source, [None] is nil. *)
Record MicroServiceInstance : Type := {
  msi_ServiceID : string;
  msi_EndpointsMap : gomap;
  msi_HostName : string;
  msi_Status : string;
  msi_Metadata : gmap string string;
  msi_DataCenterInfo : option DataCenterInfo }.

(** [registry.MicroServiceDependency]; only its empty value is built here. *)
Inductive MicroServiceDependency : Type := emptyMicroServiceDependency.

(** ** Package-level state *)

(** Package [runtime]. *)
Record Runtime : Type := {
  ServiceID : string;
  App : string;
  HostName : string;
  InstanceID : string;
  InstanceStatus : string }.

(** [config.MicroserviceDefinition.ServiceDescription]. *)
Record MicServiceStruct : Type := {
  Name : string;
  Version : string;
  Environment : string;
  Level : string;
  Properties : gomap;
  InstanceProperties : gomap;
  ServicePaths : list ServicePathStruct }.

(** [config.GlobalDefinition.DataCenter]. *)
Record DataCenterStruct : Type := {
  dc_Name : string;
  dc_AvailableZone : string }.

(** What the cache stores under a key: an [interface{}] value, which the code
    type-asserts to [[]string]. *)
Inductive cache_item : Type :=
  | StringSlice (ids : list string)
  | OtherItem.

(** The calls made to the collaborators, in order, with their results.
    [CallRegisterServiceInstance] holds the descriptor as it was handed over
    and as the call left it. *)
Inductive Call : Type :=
  | CallRegisterService (microservice : MicroService) (res : result string)
  | CallAddSchemas (sid schemaID schemaInfo : string)
  | CallGetMicroServiceID (app name version env : string) (res : result string)
  | CallRegisterServiceInstance (sid : string)
      (submitted left : MicroServiceInstance) (res : result string)
  | CallUpdateMicroServiceInstanceProperties (sid instanceID : string)
      (properties : gmap string string) (res : option error).

(** ** Collaborators *)

(** The [Registrator] interface over a registry state [Reg].  The instance
    descriptor is handed over by pointer and its [ServiceID] field is read
    again after the call, so [RegisterServiceInstance] also returns the
    descriptor as it leaves it.  Collaborators do not write to the variables
    of [World] other than the registry. *)
Class Registrator (Reg : Type) : Type := {
  RegisterService : MicroService → Reg → Reg * result string;
  AddSchemas : string → string → string → Reg → Reg * option error;
  RegisterServiceInstance :
    string → MicroServiceInstance → Reg → Reg * MicroServiceInstance * result string;
  UpdateMicroServiceInstanceProperties :
    string → string → gmap string string → Reg → Reg * option error }.

(** The [ServiceDiscovery] interface. *)
Class ServiceDiscovery (Reg : Type) : Type := {
  GetMicroServiceID : string → string → string → string → Reg → Reg * result string }.

(** What the file uses of the packages [schema], [metadata], [common] and
    [runtime] and of [MakeEndpointMap], all declared elsewhere.  [Protocols]
    is the type of [config.GlobalDefinition.Cse.Protocols]. *)
Class Packages (Protocols : Type) : Type := {
  GetSchemaIDs : string → result (list string);
  DefaultSchemaIDsMap : gmap string string;
  NewFramework : MetadataFramework;
  MakeEndpointMap : Protocols → result gomap;
  DefaultLevel : string;
  DefaultStatus : string;
  StatusRunning : string }.

Section Model.
Context {Reg Protocols : Type}.
Context {registrator : Registrator Reg} {discovery : ServiceDiscovery Reg}.
Context {packages : Packages Protocols}.

(** The package-level variables the two functions touch.
    [RegistratorScope] is what [config.GetRegistratorScope()] returns.
    Modelled from the spec: the type of [SelfInstancesCache] is declared
    outside this file; the spec describes a mapping from service ID to a list
    of instance IDs whose entries never expire, so it is a finite map here.
    An entry is the value of the slice stored under its key.  Slices stored
    under different keys can share a backing array, and an [append] in place
    can then change what the entry under another key shows; the map does not
    follow that.  It is exact for the entry a run reads and for the entry it
    writes, and the properties below speak of those. *)
Record World : Type := {
  runtime : Runtime;
  ServiceDescription : MicServiceStruct;
  CseProtocols : Protocols;
  DataCenter : DataCenterStruct;
  NodeIP : string;
  RegistratorScope : string;
  InstanceEndpoints : gomap;
  microServiceDependencies : option MicroServiceDependency;
  SelfInstancesCache : gmap string cache_item;
  registry : Reg }.

(** *** Assignments to the package-level variables *)

Definition set_runtime (f : Runtime → Runtime) (w : World) : World :=
  {| runtime := f (runtime w);
     ServiceDescription := ServiceDescription w;
     CseProtocols := CseProtocols w;
     DataCenter := DataCenter w;
     NodeIP := NodeIP w;
     RegistratorScope := RegistratorScope w;
     InstanceEndpoints := InstanceEndpoints w;
     microServiceDependencies := microServiceDependencies w;
     SelfInstancesCache := SelfInstancesCache w;
     registry := registry w |}.

Definition set_ServiceDescription (f : MicServiceStruct → MicServiceStruct)
    (w : World) : World :=
  {| runtime := runtime w;
     ServiceDescription := f (ServiceDescription w);
     CseProtocols := CseProtocols w;
     DataCenter := DataCenter w;
     NodeIP := NodeIP w;
     RegistratorScope := RegistratorScope w;
     InstanceEndpoints := InstanceEndpoints w;
     microServiceDependencies := microServiceDependencies w;
     SelfInstancesCache := SelfInstancesCache w;
     registry := registry w |}.

Definition set_microServiceDependencies (d : option MicroServiceDependency)
    (w : World) : World :=
  {| runtime := runtime w;
     ServiceDescription := ServiceDescription w;
     CseProtocols := CseProtocols w;
     DataCenter := DataCenter w;
     NodeIP := NodeIP w;
     RegistratorScope := RegistratorScope w;
     InstanceEndpoints := InstanceEndpoints w;
     microServiceDependencies := d;
     SelfInstancesCache := SelfInstancesCache w;
     registry := registry w |}.

Definition set_SelfInstancesCache (c : gmap string cache_item) (w : World) : World :=
  {| runtime := runtime w;
     ServiceDescription := ServiceDescription w;
     CseProtocols := CseProtocols w;
     DataCenter := DataCenter w;
     NodeIP := NodeIP w;
     RegistratorScope := RegistratorScope w;
     InstanceEndpoints := InstanceEndpoints w;
     microServiceDependencies := microServiceDependencies w;
     SelfInstancesCache := c;
     registry := registry w |}.

Definition set_registry (r : Reg) (w : World) : World :=
  {| runtime := runtime w;
     ServiceDescription := ServiceDescription w;
     CseProtocols := CseProtocols w;
     DataCenter := DataCenter w;
     NodeIP := NodeIP w;
     RegistratorScope := RegistratorScope w;
     InstanceEndpoints := InstanceEndpoints w;
     microServiceDependencies := microServiceDependencies w;
     SelfInstancesCache := SelfInstancesCache w;
     registry := r |}.

Definition set_ServiceID (sid : string) (rt : Runtime) : Runtime :=
  {| ServiceID := sid; App := App rt; HostName := HostName rt;
     InstanceID := InstanceID rt; InstanceStatus := InstanceStatus rt |}.

Definition set_InstanceID (iid : string) (rt : Runtime) : Runtime :=
  {| ServiceID := ServiceID rt; App := App rt; HostName := HostName rt;
     InstanceID := iid; InstanceStatus := InstanceStatus rt |}.

Definition set_InstanceStatus (st : string) (rt : Runtime) : Runtime :=
  {| ServiceID := ServiceID rt; App := App rt; HostName := HostName rt;
     InstanceID := InstanceID rt; InstanceStatus := st |}.

Definition set_Level (l : string) (sd : MicServiceStruct) : MicServiceStruct :=
  {| Name := Name sd; Version := Version sd; Environment := Environment sd;
     Level := l; Properties := Properties sd;
     InstanceProperties := InstanceProperties sd;
     ServicePaths := ServicePaths sd |}.

Definition set_Properties (p : gomap) (sd : MicServiceStruct) : MicServiceStruct :=
  {| Name := Name sd; Version := Version sd; Environment := Environment sd;
     Level := Level sd; Properties := p;
     InstanceProperties := InstanceProperties sd;
     ServicePaths := ServicePaths sd |}.

(** [service.ServiceDescription.Properties[k] = v]; the map is not nil
    where the code does this. *)
Definition put_Property (k v : string) (sd : MicServiceStruct) : MicServiceStruct :=
  set_Properties (insert k v <$> Properties sd) sd.

Definition set_ms_Alias (a : string) (m : MicroService) : MicroService :=
  {| ms_ServiceID := ms_ServiceID m; ms_AppID := ms_AppID m;
     ms_ServiceName := ms_ServiceName m; ms_Version := ms_Version m;
     ms_Paths := ms_Paths m; ms_Environment := ms_Environment m;
     ms_Status := ms_Status m; ms_Level := ms_Level m;
     ms_Schemas := ms_Schemas m; ms_Framework := ms_Framework m;
     ms_RegisterBy := ms_RegisterBy m; ms_Metadata := ms_Metadata m;
     ms_Alias := a |}.

Definition put_ms_Metadata (k v : string) (m : MicroService) : MicroService :=
  {| ms_ServiceID := ms_ServiceID m; ms_AppID := ms_AppID m;
     ms_ServiceName := ms_ServiceName m; ms_Version := ms_Version m;
     ms_Paths := ms_Paths m; ms_Environment := ms_Environment m;
     ms_Status := ms_Status m; ms_Level := ms_Level m;
     ms_Schemas := ms_Schemas m; ms_Framework := ms_Framework m;
     ms_RegisterBy := ms_RegisterBy m;
     ms_Metadata := <[k := v]> (ms_Metadata m);
     ms_Alias := ms_Alias m |}.

Definition set_msi_DataCenterInfo (d : option DataCenterInfo)
    (i : MicroServiceInstance) : MicroServiceInstance :=
  {| msi_ServiceID := msi_ServiceID i; msi_EndpointsMap := msi_EndpointsMap i;
     msi_HostName := msi_HostName i; msi_Status := msi_Status i;
     msi_Metadata := msi_Metadata i; msi_DataCenterInfo := d |}.

(** *** The monad: state, trace of calls, early return with an error *)

Definition M (A : Type) : Type := World → World * list Call * result A.

#[export] Instance M_ret : MRet M := λ A a w, (w, [], Ok a).

#[export] Instance M_bind : MBind M := λ A B f m w,
  match m w with
  | (w1, t1, Ok a) => let '(w2, t2, r) := f a w1 in (w2, t1 ++ t2, r)
  | (w1, t1, Err e) => (w1, t1, Err e)
  end.

Definition gets {A : Type} (f : World → A) : M A := λ w, (w, [], Ok (f w)).
Definition modify (f : World → World) : M unit := λ w, (f w, [], Ok tt).
Definition fail {A : Type} (e : error) : M A := λ w, (w, [], Err e).
Definition lift {A : Type} (r : result A) : M A := λ w, (w, [], r).

(** A [for _, x := range l] loop whose body is a command. *)
Fixpoint range {A : Type} (l : list A) (body : A → M unit) : M unit :=
  match l with
  | [] => mret tt
  | x :: l' => body x ;; range l' body
  end.

(** What a Go function of type [func() error] returns. *)
Definition run (m : M unit) (w : World) : World * list Call * option error :=
  match m w with
  | (w', t, Ok _) => (w', t, None)
  | (w', t, Err e) => (w', t, Some e)
  end.

(** *** Calls to the collaborators *)

Definition call_RegisterService (microservice : MicroService) : M string := λ w,
  let '(r, res) := RegisterService microservice (registry w) in
  (set_registry r w, [CallRegisterService microservice res], res).

(** The error [AddSchemas] returns is dropped by the caller. *)
Definition call_AddSchemas (sid schemaID schemaInfo : string) : M unit := λ w,
  let '(r, _) := AddSchemas sid schemaID schemaInfo (registry w) in
  (set_registry r w, [CallAddSchemas sid schemaID schemaInfo], Ok tt).

Definition call_GetMicroServiceID (app name version env : string) : M string := λ w,
  let '(r, res) := GetMicroServiceID app name version env (registry w) in
  (set_registry r w, [CallGetMicroServiceID app name version env res], res).

Definition call_RegisterServiceInstance (sid : string) (inst : MicroServiceInstance)
    : M (string * MicroServiceInstance) := λ w,
  let '(r, inst', res) := RegisterServiceInstance sid inst (registry w) in
  (set_registry r w, [CallRegisterServiceInstance sid inst inst' res],
   match res with Ok iid => Ok (iid, inst') | Err e => Err e end).

Definition call_UpdateMicroServiceInstanceProperties (sid instanceID : string)
    (properties : gmap string string) : M unit := λ w,
  let '(r, res) :=
    UpdateMicroServiceInstanceProperties sid instanceID properties (registry w) in
  (set_registry r w,
   [CallUpdateMicroServiceInstanceProperties sid instanceID properties res],
   match res with None => Ok tt | Some e => Err e end).

(** *** RegisterMicroservice *)

(** The loop that copies the configured paths. *)
Definition copy_paths (svcPaths : list ServicePathStruct) : list ServicePath :=
  foldl (λ regpaths svcPath,
           regpaths ++ [{| Path := cfg_Path svcPath;
                           Property := cfg_Property svcPath |}])
        [] svcPaths.

(** [RegisterMicroservice] (lines 23-106): defaults, descriptor, alias and
    visibility flag, then the registration and the schema loop. *)
Definition RegisterMicroservice : M unit :=
  modify (set_microServiceDependencies (Some emptyMicroServiceDependency)) ;;
  name ← gets (Name ∘ ServiceDescription) ;
  let schemas := match GetSchemaIDs name with
                 | Ok ids => ids
                 | Err _ => []
                 end in
  level ← gets (Level ∘ ServiceDescription) ;
  (if decide (level = EmptyString)
   then modify (set_ServiceDescription (set_Level DefaultLevel))
   else mret tt) ;;
  props ← gets (Properties ∘ ServiceDescription) ;
  (if props is None
   then modify (set_ServiceDescription (set_Properties (Some ∅)))
   else mret tt) ;;
  let framework := NewFramework in
  svcPaths ← gets (ServicePaths ∘ ServiceDescription) ;
  let regpaths := copy_paths svcPaths in
  rt ← gets runtime ;
  service ← gets ServiceDescription ;
  let microservice :=
    {| ms_ServiceID := ServiceID rt;
       ms_AppID := App rt;
       ms_ServiceName := Name service;
       ms_Version := Version service;
       ms_Paths := regpaths;
       ms_Environment := Environment service;
       ms_Status := DefaultStatus;
       ms_Level := Level service;
       ms_Schemas := schemas;
       ms_Framework := {| fw_Version := mf_Version framework;
                          fw_Name := mf_Name framework |};
       ms_RegisterBy := mf_Register framework;
       ms_Metadata := ∅;
       ms_Alias := EmptyString |} in
  let microservice :=
    if decide (String.length (ms_Alias microservice) = 0)
    then set_ms_Alias (ms_AppID microservice +:+ ":" +:+ ms_ServiceName microservice)
                      microservice
    else microservice in
  scope ← gets RegistratorScope ;
  microservice ←
    (if decide (scope = ScopeFull)
     then modify (set_ServiceDescription (put_Property "allowCrossApp" TRUE)) ;;
          mret (put_ms_Metadata "allowCrossApp" TRUE microservice)
     else modify (set_ServiceDescription (put_Property "allowCrossApp" FALSE)) ;;
          mret microservice) ;
  sid ← call_RegisterService microservice ;
  if decide (sid = EmptyString) then fail errEmptyServiceIDFromRegistry else
  modify (set_runtime (set_ServiceID sid)) ;;
  range schemas (λ schemaID,
    let schemaInfo := default EmptyString (DefaultSchemaIDsMap !! schemaID) in
    call_AddSchemas sid schemaID schemaInfo) ;;
  mret tt.

(** *** RegisterMicroserviceInstances *)

(** [value, _ := SelfInstancesCache.Get(key)]: the stored item, nil when there
    is none. *)
Definition cache_Get (c : gmap string cache_item) (key : string) : option cache_item :=
  c !! key.

(** [instanceIDs, _ := value.([]string)]: the nil slice when the value is nil
    or is not a [[]string]. *)
Definition assert_string_slice (value : option cache_item) : list string :=
  match value with
  | Some (StringSlice ids) => ids
  | _ => []
  end.

(** The loop that sets [isRepeat]. *)
Definition is_repeat (instanceIDs : list string) (instanceID : string) : bool :=
  foldl (λ isRepeat va, if decide (va = instanceID) then true else isRepeat)
        false instanceIDs.

(** The slice that is stored back, as a value: the one read, with
    [instanceID] appended unless the loop found it.  Whether [append] puts
    the new element in the backing array of the slice read or in a new array
    is not part of it. *)
Definition record_instance (instanceIDs : list string) (instanceID : string)
    : list string :=
  if is_repeat instanceIDs instanceID then instanceIDs
  else instanceIDs ++ [instanceID].

(** The descriptor built before the datacenter check. *)
Definition new_instance (eps : gomap) (w : World) : MicroServiceInstance :=
  {| msi_ServiceID := EmptyString;
     msi_EndpointsMap := eps;
     msi_HostName := HostName (runtime w);
     msi_Status := DefaultStatus;
     msi_Metadata := {[ "nodeIP" := NodeIP w ]};
     msi_DataCenterInfo := None |}.

(** The datacenter check: [dInfo] is filled in and attached when both the
    name and the availability zone are configured. *)
Definition attach_DataCenterInfo (dc : DataCenterStruct)
    (microServiceInstance : MicroServiceInstance) : MicroServiceInstance :=
  if decide (dc_Name dc ≠ EmptyString ∧ dc_AvailableZone dc ≠ EmptyString)
  then set_msi_DataCenterInfo
         (Some {| dci_Name := dc_Name dc;
                  dci_Region := dc_Name dc;
                  dci_AvailableZone := dc_AvailableZone dc |})
         microServiceInstance
  else microServiceInstance.

(** [RegisterMicroserviceInstances] (lines 109-176).  The cache is read under
    [microServiceInstance.ServiceID], as line 162 has it, and written under
    [sid], as line 173 has it. *)
Definition RegisterMicroserviceInstances : M unit :=
  rt ← gets runtime ;
  service ← gets ServiceDescription ;
  sid ← call_GetMicroServiceID (App rt) (Name service) (Version service)
                               (Environment service) ;
  protocols ← gets CseProtocols ;
  eps ← lift (MakeEndpointMap protocols) ;
  override ← gets InstanceEndpoints ;
  let eps := if override is Some _ then override else eps in
  microServiceInstance ← gets (new_instance eps) ;
  dc ← gets DataCenter ;
  let microServiceInstance := attach_DataCenterInfo dc microServiceInstance in
  '(instanceID, microServiceInstance) ←
    call_RegisterServiceInstance sid microServiceInstance ;
  modify (set_runtime (set_InstanceID instanceID)) ;;
  modify (set_runtime (set_InstanceStatus StatusRunning)) ;;
  instanceProperties ← gets (InstanceProperties ∘ ServiceDescription) ;
  (if instanceProperties is Some properties
   then call_UpdateMicroServiceInstanceProperties sid instanceID properties
   else mret tt) ;;
  cache ← gets SelfInstancesCache ;
  let value := cache_Get cache (msi_ServiceID microServiceInstance) in
  let instanceIDs := assert_string_slice value in
  let instanceIDs := record_instance instanceIDs instanceID in
  modify (set_SelfInstancesCache (<[ sid := StringSlice instanceIDs ]> cache)) ;;
  mret tt.

(** *** Observations on a run *)

(** The service descriptors handed to [RegisterService] in a trace. *)
Definition submitted_services (t : list Call) : list MicroService :=
  omap (λ c, if c is CallRegisterService m _ then Some m else None) t.

(** The instance descriptors handed to [RegisterServiceInstance] in a trace. *)
Definition submitted_instances (t : list Call) : list MicroServiceInstance :=
  omap (λ c, if c is CallRegisterServiceInstance _ i _ _ then Some i else None) t.

(** The schema registrations of a trace, as (service ID, schema ID). *)
Definition schema_registrations (t : list Call) : list (string * string) :=
  omap (λ c, if c is CallAddSchemas sid schemaID _ then Some (sid, schemaID) else None) t.

(** The instance IDs the cache holds for a service ID. *)
Definition cached_instances (w : World) (sid : string) : list string :=
  assert_string_slice (cache_Get (SelfInstancesCache w) sid).

(** How often an instance ID occurs in a list. *)
Definition occurrences (instanceID : string) (ids : list string) : nat :=
  length (filter (λ va, va = instanceID) ids).

(** What the spec describes for the cache update: read the list stored under
    the resolved service ID, append the new ID unless it is there, store the
    list under the same service ID. *)
Definition spec_cache_update (c : gmap string cache_item) (sid instanceID : string)
    : gmap string cache_item :=
  let ids := assert_string_slice (c !! sid) in
  <[ sid := StringSlice (if decide (instanceID ∈ ids) then ids
                         else ids ++ [instanceID]) ]> c.

End Model.

(** ** Scripted collaborators

    A registry that answers every call from a fixed script and leaves the
    descriptors it is handed as they are, and the packages with fixed
    contents.  They give the concrete runs below. *)

Record Script : Type := {
  on_RegisterService : result string;
  on_AddSchemas : option error;
  on_GetMicroServiceID : result string;
  on_RegisterServiceInstance : result string;
  on_UpdateMicroServiceInstanceProperties : option error }.

#[export] Instance scripted_Registrator : Registrator Script := {|
  RegisterService := λ _ s, (s, on_RegisterService s);
  AddSchemas := λ _ _ _ s, (s, on_AddSchemas s);
  RegisterServiceInstance := λ _ inst s, (s, inst, on_RegisterServiceInstance s);
  UpdateMicroServiceInstanceProperties := λ _ _ _ s,
    (s, on_UpdateMicroServiceInstanceProperties s) |}.

#[export] Instance scripted_ServiceDiscovery : ServiceDiscovery Script := {|
  GetMicroServiceID := λ _ _ _ _ s, (s, on_GetMicroServiceID s) |}.

(** The protocols are given as the endpoint map they stand for. *)
Definition scripted_Packages (schemas : result (list string))
    : Packages (gmap string string) := {|
  GetSchemaIDs := λ _, schemas;
  DefaultSchemaIDsMap := {[ "hello" := "swagger: 2.0" ]};
  NewFramework := {| mf_Name := "Go-Chassis"; mf_Version := "v1"; mf_Register := "SDK" |};
  MakeEndpointMap := λ protocols, Ok (Some protocols);
  DefaultLevel := "BACK";
  DefaultStatus := "UP";
  StatusRunning := "UP" |}.

Definition script_ok : Script := {|
  on_RegisterService := Ok "sid-1";
  on_AddSchemas := None;
  on_GetMicroServiceID := Ok "sid-1";
  on_RegisterServiceInstance := Ok "inst-1";
  on_UpdateMicroServiceInstanceProperties := None |}.

Definition script_empty_sid : Script := {|
  on_RegisterService := Ok EmptyString;
  on_AddSchemas := None;
  on_GetMicroServiceID := Ok "sid-1";
  on_RegisterServiceInstance := Ok "inst-1";
  on_UpdateMicroServiceInstanceProperties := None |}.

Definition script_update_fails : Script := {|
  on_RegisterService := Ok "sid-1";
  on_AddSchemas := None;
  on_GetMicroServiceID := Ok "sid-1";
  on_RegisterServiceInstance := Ok "inst-1";
  on_UpdateMicroServiceInstanceProperties := Some (errCollaborator "update refused") |}.

(** A process configured as application "app1", service "svcA", version
    "1.0", one REST protocol, datacenter "dc1" in zone "az1". *)
Definition world0 (scope : string) (override instanceProperties : gomap)
    (cache : gmap string cache_item) (script : Script)
    : World (Reg := Script) (Protocols := gmap string string) := {|
  runtime := {| ServiceID := "old-sid"; App := "app1"; HostName := "host-1";
                InstanceID := EmptyString; InstanceStatus := EmptyString |};
  ServiceDescription := {| Name := "svcA"; Version := "1.0"; Environment := EmptyString;
                           Level := EmptyString; Properties := None;
                           InstanceProperties := instanceProperties;
                           ServicePaths := [] |};
  CseProtocols := {[ "rest" := "127.0.0.1:8080" ]};
  DataCenter := {| dc_Name := "dc1"; dc_AvailableZone := "az1" |};
  NodeIP := "10.0.0.1";
  RegistratorScope := scope;
  InstanceEndpoints := override;
  microServiceDependencies := None;
  SelfInstancesCache := cache;
  registry := script |}.

(** The packages of the concrete runs: one schema, "hello", is found. *)
#[export] Instance example_Packages : Packages (gmap string string) :=
  scripted_Packages (Ok ["hello"]).

(** The packages when the schema lookup fails. *)
Definition no_schema_Packages : Packages (gmap string string) :=
  scripted_Packages (Err (errCollaborator "no schemas file")).

(** Scope "full", no override, no instance properties, empty cache. *)
Definition world_full : World := world0 "full" None None ∅ script_ok.

(** Scope "app". *)
Definition world_app : World := world0 "app" None None ∅ script_ok.

(** The registry returns the empty service ID. *)
Definition world_empty_sid : World := world0 "full" None None ∅ script_empty_sid.

(** An endpoint override that differs from the configured protocol. *)
Definition world_override : World :=
  world0 "full" (Some {[ "rest" := "192.168.0.7:9090" ]}) None ∅ script_ok.

(** Instance properties are configured and their update fails. *)
Definition world_update_fails : World :=
  world0 "full" None (Some {[ "zone" := "blue" ]}) ∅ script_update_fails.

(** The cache already holds an instance of "sid-1". *)
Definition world_cached : World :=
  world0 "full" None None {[ "sid-1" := StringSlice ["inst-0"] ]} script_ok.

(** The instance descriptor a run from [w] submits (the bare descriptor when
    the run submits none). *)
Definition submitted_instance (w : World) : MicroServiceInstance :=
  default (new_instance None w)
          (head (submitted_instances (run RegisterMicroserviceInstances w).1.2)).

(** The process after one and after two runs of
    [RegisterMicroserviceInstances] from [world_full]. *)
Definition registered_once : World :=
  (run RegisterMicroserviceInstances world_full).1.1.
Definition registered_twice : World :=
  (run RegisterMicroserviceInstances registered_once).1.1.

(** ** Further observations on a run *)

(** The updates of instance properties of a trace, as (service ID, instance
    ID, properties). *)
Definition property_updates (t : list Call)
    : list (string * string * gmap string string) :=
  omap (λ c, if c is CallUpdateMicroServiceInstanceProperties sid iid properties _
             then Some (sid, iid, properties) else None) t.

(** ** Further scripted collaborators and processes *)

Definition script_register_fails : Script := {|
  on_RegisterService := Err (errCollaborator "registry unreachable");
  on_AddSchemas := None;
  on_GetMicroServiceID := Ok "sid-1";
  on_RegisterServiceInstance := Ok "inst-1";
  on_UpdateMicroServiceInstanceProperties := None |}.

(** Every schema registration fails. *)
Definition script_schemas_fail : Script := {|
  on_RegisterService := Ok "sid-1";
  on_AddSchemas := Some (errCollaborator "schema refused");
  on_GetMicroServiceID := Ok "sid-1";
  on_RegisterServiceInstance := Ok "inst-1";
  on_UpdateMicroServiceInstanceProperties := None |}.

Definition script_discovery_fails : Script := {|
  on_RegisterService := Ok "sid-1";
  on_AddSchemas := None;
  on_GetMicroServiceID := Err (errCollaborator "service not found");
  on_RegisterServiceInstance := Ok "inst-1";
  on_UpdateMicroServiceInstanceProperties := None |}.

Definition script_instance_fails : Script := {|
  on_RegisterService := Ok "sid-1";
  on_AddSchemas := None;
  on_GetMicroServiceID := Ok "sid-1";
  on_RegisterServiceInstance := Err (errCollaborator "instance refused");
  on_UpdateMicroServiceInstanceProperties := None |}.

(** The packages when [MakeEndpointMap] fails. *)
Definition no_endpoint_Packages : Packages (gmap string string) := {|
  GetSchemaIDs := λ _, Ok ["hello"];
  DefaultSchemaIDsMap := {[ "hello" := "swagger: 2.0" ]};
  NewFramework := {| mf_Name := "Go-Chassis"; mf_Version := "v1"; mf_Register := "SDK" |};
  MakeEndpointMap := λ _, Err (errCollaborator "no listen address");
  DefaultLevel := "BACK";
  DefaultStatus := "UP";
  StatusRunning := "UP" |}.

(** The packages with two schema IDs, the second without contents. *)
Definition two_schema_Packages : Packages (gmap string string) :=
  scripted_Packages (Ok ["hello"; "bye"]).

(** A registry that answers from a script and writes the service ID it is
    given into the descriptor it is handed. *)
Record Stamping : Type := { stamping_script : Script }.

#[export] Instance stamping_Registrator : Registrator Stamping := {|
  RegisterService := λ _ s, (s, on_RegisterService (stamping_script s));
  AddSchemas := λ _ _ _ s, (s, on_AddSchemas (stamping_script s));
  RegisterServiceInstance := λ sid inst s,
    (s,
     {| msi_ServiceID := sid;
        msi_EndpointsMap := msi_EndpointsMap inst;
        msi_HostName := msi_HostName inst;
        msi_Status := msi_Status inst;
        msi_Metadata := msi_Metadata inst;
        msi_DataCenterInfo := msi_DataCenterInfo inst |},
     on_RegisterServiceInstance (stamping_script s));
  UpdateMicroServiceInstanceProperties := λ _ _ _ s,
    (s, on_UpdateMicroServiceInstanceProperties (stamping_script s)) |}.

#[export] Instance stamping_ServiceDiscovery : ServiceDiscovery Stamping := {|
  GetMicroServiceID := λ _ _ _ _ s, (s, on_GetMicroServiceID (stamping_script s)) |}.

(** A process like [world0] with a configured level, configured properties,
    instance properties and two service paths. *)
Definition world1 (Reg : Type) (cache : gmap string cache_item) (reg : Reg)
    : World (Reg := Reg) (Protocols := gmap string string) := {|
  runtime := {| ServiceID := "old-sid"; App := "app1"; HostName := "host-1";
                InstanceID := "old-inst"; InstanceStatus := "DOWN" |};
  ServiceDescription :=
    {| Name := "svcA"; Version := "1.0"; Environment := "production";
       Level := "FRONT";
       Properties := Some {[ "team" := "blue" ; "allowCrossApp" := "maybe" ]};
       InstanceProperties := Some {[ "zone" := "blue" ]};
       ServicePaths :=
         [ {| cfg_Path := "/a"; cfg_Property := {[ "checksession" := "false" ]} |};
           {| cfg_Path := "/b"; cfg_Property := ∅ |} ] |};
  CseProtocols := {[ "rest" := "127.0.0.1:8080" ]};
  DataCenter := {| dc_Name := "dc1"; dc_AvailableZone := EmptyString |};
  NodeIP := "10.0.0.1";
  RegistratorScope := "app";
  InstanceEndpoints := None;
  microServiceDependencies := None;
  SelfInstancesCache := cache;
  registry := reg |}.

Definition world_register_fails : World := world0 "full" None None ∅ script_register_fails.
Definition world_schemas_fail : World := world0 "full" None None ∅ script_schemas_fail.
Definition world_discovery_fails : World :=
  world0 "full" None None {[ "sid-1" := StringSlice ["inst-0"] ]} script_discovery_fails.
Definition world_instance_fails : World :=
  world0 "full" None (Some {[ "zone" := "blue" ]})
         {[ "sid-1" := StringSlice ["inst-0"] ]} script_instance_fails.
Definition world_configured : World := world1 Script ∅ script_ok.
Definition world_other_service : World :=
  world1 Script {[ "sid-1" := StringSlice ["inst-0"]; "sid-2" := StringSlice ["inst-9"] ]}
         script_ok.
Definition world_stamping : World :=
  world1 Stamping {[ "sid-1" := StringSlice ["inst-0"] ]} {| stamping_script := script_ok |}.

(** The process after [RegisterMicroservice] from [world_full], and after
    [RegisterMicroserviceInstances] following it. *)
Definition service_registered : World := (run RegisterMicroservice world_full).1.1.
Definition bootstrapped : World :=
  (run RegisterMicroserviceInstances service_registered).1.1.

(** The first service descriptor of a trace, the first instance descriptor
    and the same descriptor as the registry left it (descriptors with empty
    fields when the trace has none). *)
Definition first_service (t : list Call) : MicroService :=
  default {| ms_ServiceID := EmptyString; ms_AppID := EmptyString;
             ms_ServiceName := EmptyString; ms_Version := EmptyString;
             ms_Paths := []; ms_Environment := EmptyString;
             ms_Status := EmptyString; ms_Level := EmptyString;
             ms_Schemas := [];
             ms_Framework := {| fw_Version := EmptyString; fw_Name := EmptyString |};
             ms_RegisterBy := EmptyString; ms_Metadata := ∅;
             ms_Alias := EmptyString |}
          (head (submitted_services t)).

Definition blank_instance : MicroServiceInstance :=
  {| msi_ServiceID := EmptyString; msi_EndpointsMap := None;
     msi_HostName := EmptyString; msi_Status := EmptyString;
     msi_Metadata := ∅; msi_DataCenterInfo := None |}.

Definition first_instance (t : list Call) : MicroServiceInstance :=
  default blank_instance (head (submitted_instances t)).

Definition first_left_instance (t : list Call) : MicroServiceInstance :=
  default blank_instance
    (head (omap (λ c, if c is CallRegisterServiceInstance _ _ i _ then Some i else None)
                t)).

(** The runs the concrete lemmas below speak about. *)
Definition service_run_register_fails :=
  run RegisterMicroservice world_register_fails.
Definition service_run_schemas_fail_two_schema :=
  run (RegisterMicroservice (packages := two_schema_Packages)) world_schemas_fail.
Definition service_run_full :=
  run RegisterMicroservice world_full.
Definition service_run_configured :=
  run RegisterMicroservice world_configured.
Definition service_run_service_registered :=
  run RegisterMicroservice service_registered.
Definition service_run_other_service :=
  run RegisterMicroservice world_other_service.
Definition instances_run_discovery_fails :=
  run RegisterMicroserviceInstances world_discovery_fails.
Definition instances_run_override_no_endpoint :=
  run (RegisterMicroserviceInstances (packages := no_endpoint_Packages)) world_override.
Definition instances_run_instance_fails :=
  run RegisterMicroserviceInstances world_instance_fails.
Definition instances_run_full :=
  run RegisterMicroserviceInstances world_full.
Definition instances_run_configured :=
  run RegisterMicroserviceInstances world_configured.
Definition instances_run_stamping :=
  run RegisterMicroserviceInstances world_stamping.
Definition instances_run_cached :=
  run RegisterMicroserviceInstances world_cached.
Definition instances_run_service_registered :=
  run RegisterMicroserviceInstances service_registered.

(** * Properties *)

Section Properties.
Context {Reg Protocols : Type}.
Context {registrator : Registrator Reg} {discovery : ServiceDiscovery Reg}.
Context {packages : Packages Protocols}.
Implicit Types w : World (Reg := Reg) (Protocols := Protocols).

(** ** Equations of the monad *)

Lemma bind_gets {A B : Type} (f : World → A) (k : A → M B) w :
  (gets f ≫= k) w = k (f w) w.
Proof. unfold mbind, M_bind, gets. by destruct (k (f w) w) as [[??]?]. Qed.

Lemma bind_modify {B : Type} (f : World → World) (k : unit → M B) w :
  (modify f ≫= k) w = k tt (f w).
Proof. unfold mbind, M_bind, modify. by destruct (k tt (f w)) as [[??]?]. Qed.

Lemma bind_ret {A B : Type} (a : A) (k : A → M B) w :
  (mret a ≫= k) w = k a w.
Proof. unfold mbind, M_bind, mret, M_ret. by destruct (k a w) as [[??]?]. Qed.

Lemma bind_lift_Ok {A B : Type} (a : A) (k : A → M B) w :
  (lift (Ok a) ≫= k) w = k a w.
Proof. unfold mbind, M_bind, lift. by destruct (k a w) as [[??]?]. Qed.

Lemma bind_lift_Err {A B : Type} (e : error) (k : A → M B) w :
  (lift (Err e) ≫= k) w = (w, [], Err e).
Proof. done. Qed.

Lemma bind_assoc {A B C : Type} (m : M A) (f : A → M B) (g : B → M C) w :
  ((m ≫= f) ≫= g) w = (m ≫= λ a, f a ≫= g) w.
Proof.
  unfold mbind, M_bind. destruct (m w) as [[w1 t1] [a|e]]; [|done].
  destruct (f a w1) as [[w2 t2] [b|e]]; [|done].
  destruct (g b w2) as [[w3 t3] r]. by rewrite app_assoc.
Qed.

(** ** The collaborator calls, followed by the rest of the body *)

Lemma bind_call_RegisterService {B : Type} ms (k : string → M B) w r res :
  RegisterService ms (registry w) = (r, res) →
  (call_RegisterService ms ≫= k) w =
    match res with
    | Ok sid => let '(w2, t2, x) := k sid (set_registry r w) in
                (w2, CallRegisterService ms res :: t2, x)
    | Err e => (set_registry r w, [CallRegisterService ms res], Err e)
    end.
Proof.
  intros Hcall. unfold mbind, M_bind, call_RegisterService. rewrite Hcall.
  by destruct res.
Qed.

Lemma bind_call_GetMicroServiceID {B : Type} app name version env
    (k : string → M B) w r res :
  GetMicroServiceID app name version env (registry w) = (r, res) →
  (call_GetMicroServiceID app name version env ≫= k) w =
    match res with
    | Ok sid => let '(w2, t2, x) := k sid (set_registry r w) in
                (w2, CallGetMicroServiceID app name version env res :: t2, x)
    | Err e => (set_registry r w, [CallGetMicroServiceID app name version env res], Err e)
    end.
Proof.
  intros Hcall. unfold mbind, M_bind, call_GetMicroServiceID. rewrite Hcall.
  by destruct res.
Qed.

Lemma bind_call_RegisterServiceInstance {B : Type} sid inst
    (k : string * MicroServiceInstance → M B) w r inst' res :
  RegisterServiceInstance sid inst (registry w) = (r, inst', res) →
  (call_RegisterServiceInstance sid inst ≫= k) w =
    match res with
    | Ok iid => let '(w2, t2, x) := k (iid, inst') (set_registry r w) in
                (w2, CallRegisterServiceInstance sid inst inst' res :: t2, x)
    | Err e => (set_registry r w, [CallRegisterServiceInstance sid inst inst' res], Err e)
    end.
Proof.
  intros Hcall. unfold mbind, M_bind, call_RegisterServiceInstance. rewrite Hcall.
  by destruct res.
Qed.

Lemma bind_call_UpdateMicroServiceInstanceProperties {B : Type} sid iid props
    (k : unit → M B) w r res :
  UpdateMicroServiceInstanceProperties sid iid props (registry w) = (r, res) →
  (call_UpdateMicroServiceInstanceProperties sid iid props ≫= k) w =
    match res with
    | None => let '(w2, t2, x) := k tt (set_registry r w) in
              (w2, CallUpdateMicroServiceInstanceProperties sid iid props res :: t2, x)
    | Some e => (set_registry r w,
                 [CallUpdateMicroServiceInstanceProperties sid iid props res], Err e)
    end.
Proof.
  intros Hcall. unfold mbind, M_bind, call_UpdateMicroServiceInstanceProperties.
  rewrite Hcall. by destruct res.
Qed.

Lemma set_registry_registry w : set_registry (registry w) w = w.
Proof. by destruct w. Qed.

(** The schema loop: one [AddSchemas] call per schema ID, in order; it never
    fails and only the registry changes. *)
Lemma range_AddSchemas (sid : string) (info : string → string)
    (schemas : list string) w :
  ∃ r, range schemas (λ schemaID, call_AddSchemas sid schemaID (info schemaID)) w
       = (set_registry r w,
          (λ schemaID, CallAddSchemas sid schemaID (info schemaID)) <$> schemas,
          Ok tt).
Proof.
  revert w. induction schemas as [|s l IH]; intros w.
  - exists (registry w). by rewrite set_registry_registry.
  - cbn [range]. unfold mbind, M_bind, call_AddSchemas at 1.
    destruct (AddSchemas sid s (info s) (registry w)) as [r1 o].
    destruct (IH (set_registry r1 w)) as [r2 ->].
    by exists r2.
Qed.

(** Reading a variable back after the assignments made so far. *)
Ltac readback :=
  cbn [compose
       set_runtime set_ServiceDescription set_microServiceDependencies
       set_SelfInstancesCache set_registry set_ServiceID set_InstanceID
       set_InstanceStatus set_Level set_Properties put_Property
       set_ms_Alias put_ms_Metadata set_msi_DataCenterInfo
       runtime ServiceDescription CseProtocols DataCenter NodeIP
       RegistratorScope InstanceEndpoints microServiceDependencies
       SelfInstancesCache registry
       ServiceID App HostName InstanceID InstanceStatus
       Name Version Environment Level Properties InstanceProperties ServicePaths
       ms_ServiceID ms_AppID ms_ServiceName ms_Version ms_Paths ms_Environment
       ms_Status ms_Level ms_Schemas ms_Framework ms_RegisterBy ms_Metadata
       ms_Alias
       msi_ServiceID msi_EndpointsMap msi_HostName msi_Status msi_Metadata
       msi_DataCenterInfo] in *.

(** One step of the body: the next read, assignment or return. *)
Ltac mstep :=
  first [ rewrite bind_gets | rewrite bind_modify | rewrite bind_ret
        | rewrite bind_lift_Ok | rewrite bind_assoc ];
  cbn beta zeta; readback.

Lemma range_AddSchemas_ret (sid : string) (info : string → string)
    (schemas : list string) w :
  ∃ r, (range schemas (λ schemaID, call_AddSchemas sid schemaID (info schemaID))
          ≫= λ _, mret tt) w
       = (set_registry r w,
          (λ schemaID, CallAddSchemas sid schemaID (info schemaID)) <$> schemas,
          Ok tt).
Proof.
  destruct (range_AddSchemas sid info schemas w) as [r Hrange].
  exists r. unfold mbind, M_bind. rewrite Hrange.
  unfold mret, M_ret. by rewrite app_nil_r.
Qed.

(** ** RegisterMicroservice, run symbolically *)

Lemma RegisterMicroservice_run w :
  ∃ ms props r res w' t e,
    run RegisterMicroservice w = (w', t, e) ∧
    RegisterService ms (registry w) = (r, res) ∧
    ms_AppID ms = App (runtime w) ∧
    ms_ServiceName ms = Name (ServiceDescription w) ∧
    ms_Alias ms = App (runtime w) +:+ ":" +:+ Name (ServiceDescription w) ∧
    ms_Schemas ms = match GetSchemaIDs (Name (ServiceDescription w)) with
                    | Ok ids => ids
                    | Err _ => []
                    end ∧
    ms_Metadata ms = (if decide (RegistratorScope w = ScopeFull)
                      then {[ "allowCrossApp" := TRUE ]} else ∅) ∧
    props = <[ "allowCrossApp" :=
                 if decide (RegistratorScope w = ScopeFull) then TRUE else FALSE ]>
              (default ∅ (Properties (ServiceDescription w))) ∧
    Properties (ServiceDescription w') = Some props ∧
    SelfInstancesCache w' = SelfInstancesCache w ∧
    match res with
    | Err err => t = [CallRegisterService ms res] ∧ e = Some err
                 ∧ runtime w' = runtime w
    | Ok sid =>
        if decide (sid = EmptyString)
        then t = [CallRegisterService ms res]
             ∧ e = Some errEmptyServiceIDFromRegistry
             ∧ runtime w' = runtime w
        else t = CallRegisterService ms res ::
                   ((λ schemaID, CallAddSchemas sid schemaID
                                   (default EmptyString (DefaultSchemaIDsMap !! schemaID)))
                      <$> ms_Schemas ms)
             ∧ e = None ∧ runtime w' = set_ServiceID sid (runtime w)
    end.
Proof.
  unfold run, RegisterMicroservice.
  do 3 mstep.
  destruct (decide (Level (ServiceDescription w) = EmptyString)) as [Hlevel|Hlevel];
    do 2 mstep;
    (destruct (Properties (ServiceDescription w)) as [props0|] eqn:Hprops;
     repeat mstep;
     destruct (decide (RegistratorScope w = ScopeFull)) as [Hscope|Hscope];
     repeat mstep).
  all: rewrite (decide_True (P := String.length EmptyString = 0)) by done.
  all: match goal with
       | |- context [call_RegisterService ?m] =>
         destruct (RegisterService m (registry w)) as [r res] eqn:Hcall;
         exists m; eexists; exists r, res;
         erewrite bind_call_RegisterService by exact Hcall
       end.
  all: destruct res as [sid|err]; [destruct (decide (sid = EmptyString)) as [Hsid|Hsid]|].
  all: try (rewrite bind_modify;
            match goal with
            | |- context [(range ?l (λ s, call_AddSchemas ?sid s (@?info s)) ≫= _) ?w0] =>
              destruct (range_AddSchemas_ret sid info l w0) as [r2 ->]
            end).
  all: do 3 eexists; (split; [reflexivity|]); readback.
  all: rewrite ?Hprops, ?insert_empty; cbn [default fmap option_fmap option_map].
  all: done.
Qed.

(** ** RegisterMicroserviceInstances, run symbolically *)

Lemma new_instance_set_registry (eps : gomap) (r : Reg) w :
  new_instance eps (set_registry r w) = new_instance eps w.
Proof. done. Qed.

Lemma RegisterMicroserviceInstances_run w :
  ∃ w' t e, run RegisterMicroserviceInstances w = (w', t, e) ∧
  ∃ r0 dres,
    let rt := runtime w in
    let sd := ServiceDescription w in
    let cache := SelfInstancesCache w in
    GetMicroServiceID (App rt) (Name sd) (Version sd) (Environment sd) (registry w)
      = (r0, dres) ∧
    let getcall :=
      CallGetMicroServiceID (App rt) (Name sd) (Version sd) (Environment sd) dres in
    match dres, MakeEndpointMap (CseProtocols w) with
    | Err err, _ | Ok _, Err err =>
        t = [getcall] ∧ e = Some err ∧ runtime w' = rt ∧ SelfInstancesCache w' = cache
    | Ok sid, Ok eps =>
        let inst :=
          attach_DataCenterInfo (DataCenter w)
            (new_instance (if InstanceEndpoints w is Some _
                           then InstanceEndpoints w else eps) w) in
        ∃ r1 inst' rres,
          RegisterServiceInstance sid inst r0 = (r1, inst', rres) ∧
          let regcall := CallRegisterServiceInstance sid inst inst' rres in
          match rres with
          | Err err =>
              t = [getcall; regcall] ∧ e = Some err ∧ runtime w' = rt
              ∧ SelfInstancesCache w' = cache
          | Ok iid =>
              runtime w' = set_InstanceStatus StatusRunning (set_InstanceID iid rt) ∧
              let cache' :=
                <[ sid := StringSlice
                            (record_instance
                               (assert_string_slice
                                  (cache_Get cache (msi_ServiceID inst')))
                               iid) ]> cache in
              match InstanceProperties sd with
              | None => t = [getcall; regcall] ∧ e = None
                        ∧ SelfInstancesCache w' = cache'
              | Some properties =>
                  ∃ r2 ures,
                    UpdateMicroServiceInstanceProperties sid iid properties r1
                      = (r2, ures) ∧
                    t = [getcall; regcall;
                         CallUpdateMicroServiceInstanceProperties
                           sid iid properties ures] ∧
                    match ures with
                    | Some err => e = Some err ∧ SelfInstancesCache w' = cache
                    | None => e = None ∧ SelfInstancesCache w' = cache'
                    end
              end
          end
    end.
Proof.
  unfold run, RegisterMicroserviceInstances.
  do 2 mstep.
  destruct (GetMicroServiceID (App (runtime w)) (Name (ServiceDescription w))
              (Version (ServiceDescription w)) (Environment (ServiceDescription w))
              (registry w)) as [r0 dres] eqn:Hget.
  erewrite bind_call_GetMicroServiceID by exact Hget.
  destruct dres as [sid|err].
  2:{ do 3 eexists. split; [reflexivity|]. exists r0, (Err err).
      cbn zeta. readback. done. }
  mstep.
  destruct (MakeEndpointMap (CseProtocols w)) as [eps|err] eqn:Hmake.
  2:{ rewrite bind_lift_Err. do 3 eexists. split; [reflexivity|].
      exists r0, (Ok sid). cbn zeta. readback. done. }
  do 4 mstep.
  rewrite new_instance_set_registry.
  match goal with
  | |- context [call_RegisterServiceInstance sid ?i] =>
    destruct (RegisterServiceInstance sid i r0) as [[r1 inst'] rres] eqn:Hreg
  end.
  erewrite bind_call_RegisterServiceInstance by exact Hreg.
  destruct rres as [iid|err].
  2:{ do 3 eexists. split; [reflexivity|]. exists r0, (Ok sid).
      cbn zeta. split; [done|]. exists r1, inst', (Err err).
      readback. done. }
  do 3 mstep.
  destruct (InstanceProperties (ServiceDescription w)) as [properties|] eqn:Hip.
  - destruct (UpdateMicroServiceInstanceProperties sid iid properties r1)
      as [r2 ures] eqn:Hupd.
    erewrite bind_call_UpdateMicroServiceInstanceProperties by exact Hupd.
    destruct ures as [err|].
    + do 3 eexists. split; [reflexivity|]. exists r0, (Ok sid).
      cbn zeta. split; [done|]. exists r1, inst', (Ok iid).
      split; [done|]. readback. split; [done|].
      exists r2, (Some err). done.
    + repeat mstep. unfold mret, M_ret.
      do 3 eexists. split; [reflexivity|]. exists r0, (Ok sid).
      cbn zeta. split; [done|]. exists r1, inst', (Ok iid).
      split; [done|]. readback. split; [done|].
      exists r2, None. done.
  - repeat mstep. unfold mret, M_ret.
    do 3 eexists. split; [reflexivity|]. exists r0, (Ok sid).
    cbn zeta. split; [done|]. exists r1, inst', (Ok iid).
    split; [done|]. readback. split; [done|]. done.
Qed.

(** ** The bookkeeping of instance IDs *)

Lemma is_repeat_foldl (instanceID : string) (instanceIDs : list string) (b : bool) :
  foldl (λ isRepeat va, if decide (va = instanceID) then true else isRepeat)
        b instanceIDs
  = b || bool_decide (instanceID ∈ instanceIDs).
Proof.
  revert b. induction instanceIDs as [|va l IH]; intros b; cbn [foldl].
  - by rewrite orb_false_r.
  - rewrite IH. destruct (decide (va = instanceID)) as [->|Hne].
    + rewrite (bool_decide_eq_true_2 (instanceID ∈ instanceID :: l))
        by apply list_elem_of_here.
      by rewrite orb_true_r.
    + destruct b; [done|]. cbn [orb]. apply bool_decide_ext.
      rewrite elem_of_cons. split; [auto | intros [?|?]; [congruence|done]].
Qed.

Lemma is_repeat_elem_of instanceIDs instanceID :
  is_repeat instanceIDs instanceID = bool_decide (instanceID ∈ instanceIDs).
Proof. unfold is_repeat. by rewrite is_repeat_foldl. Qed.

(** The stored slice is the slice read when the ID is in it, and the slice
    read with the ID at its end when it is not. *)
Lemma record_instance_elem_of instanceIDs instanceID :
  instanceID ∈ instanceIDs → record_instance instanceIDs instanceID = instanceIDs.
Proof.
  intros Hin. unfold record_instance. rewrite is_repeat_elem_of.
  by rewrite bool_decide_eq_true_2.
Qed.

Lemma record_instance_not_elem_of instanceIDs instanceID :
  instanceID ∉ instanceIDs →
  record_instance instanceIDs instanceID = instanceIDs ++ [instanceID].
Proof.
  intros Hin. unfold record_instance. rewrite is_repeat_elem_of.
  by rewrite bool_decide_eq_false_2.
Qed.

Lemma record_instance_contains instanceIDs instanceID :
  instanceID ∈ record_instance instanceIDs instanceID.
Proof.
  destruct (decide (instanceID ∈ instanceIDs)) as [Hin|Hin].
  - by rewrite record_instance_elem_of.
  - rewrite record_instance_not_elem_of by done. set_solver.
Qed.

Lemma record_instance_idempotent instanceIDs instanceID :
  record_instance (record_instance instanceIDs instanceID) instanceID
  = record_instance instanceIDs instanceID.
Proof. apply record_instance_elem_of, record_instance_contains. Qed.

Lemma record_instance_NoDup instanceIDs instanceID :
  NoDup instanceIDs → NoDup (record_instance instanceIDs instanceID).
Proof.
  intros Hnd. destruct (decide (instanceID ∈ instanceIDs)) as [Hin|Hin].
  - by rewrite record_instance_elem_of.
  - rewrite record_instance_not_elem_of by done.
    apply NoDup_app. split_and!; [done| |apply NoDup_singleton].
    intros x Hx ->%list_elem_of_singleton. done.
Qed.

Lemma occurrences_not_elem_of instanceID ids :
  instanceID ∉ ids → occurrences instanceID ids = 0.
Proof.
  unfold occurrences. induction ids as [|x l IH]; [done|].
  rewrite not_elem_of_cons. intros [Hne Hl].
  rewrite filter_cons_False by congruence. auto.
Qed.

Lemma occurrences_NoDup instanceID ids :
  NoDup ids → instanceID ∈ ids → occurrences instanceID ids = 1.
Proof.
  unfold occurrences. induction 1 as [|x l Hx Hnd IH]; [by intros ?%elem_of_nil|].
  destruct (decide (x = instanceID)) as [->|Hne].
  - intros _. rewrite filter_cons_True by done. cbn [length].
    f_equal. by apply occurrences_not_elem_of.
  - rewrite elem_of_cons, filter_cons_False by done.
    intros [?|Hin]; [congruence|auto].
Qed.

(** ** What a run hands over and what it stores *)

(** A call known to be in a trace that is given call by call. *)
Ltac trace_inv := decompose_list_elem_of; simplify_eq; try done.

Lemma AddSchemas_calls_no_service sid (info : string → string)
    (schemas : list string) ms res :
  CallRegisterService ms res
    ∉ (λ schemaID, CallAddSchemas sid schemaID (info schemaID)) <$> schemas.
Proof. intros (? & ? & _)%list_elem_of_fmap. done. Qed.

Lemma schema_registrations_AddSchemas sid (info : string → string)
    (schemas : list string) :
  schema_registrations
    ((λ schemaID, CallAddSchemas sid schemaID (info schemaID)) <$> schemas)
  = (λ schemaID, (sid, schemaID)) <$> schemas.
Proof.
  unfold schema_registrations.
  induction schemas as [|s l IH]; [done|]. cbn. by rewrite IH.
Qed.

Lemma submitted_services_AddSchemas sid (info : string → string)
    (schemas : list string) :
  submitted_services
    ((λ schemaID, CallAddSchemas sid schemaID (info schemaID)) <$> schemas) = [].
Proof.
  unfold submitted_services. induction schemas as [|s l IH]; [done|]. by cbn.
Qed.

(** The one descriptor a run of [RegisterMicroservice] submits. *)
Lemma RegisterMicroservice_submitted w w' t e :
  run RegisterMicroservice w = (w', t, e) →
  ∃ ms res t', t = CallRegisterService ms res :: t'
    ∧ submitted_services t = [ms]
    ∧ ms_Alias ms = App (runtime w) +:+ ":" +:+ Name (ServiceDescription w)
    ∧ ms_Schemas ms = match GetSchemaIDs (Name (ServiceDescription w)) with
                      | Ok ids => ids
                      | Err _ => []
                      end
    ∧ ms_Metadata ms = (if decide (RegistratorScope w = ScopeFull)
                        then {[ "allowCrossApp" := TRUE ]} else ∅).
Proof.
  intros Hrun.
  destruct (RegisterMicroservice_run w)
    as (ms & props & r & res & w1 & t1 & e1 & Hrun1 & _ & _ & _ & Halias & Hsch
        & Hmeta & _ & _ & _ & Hres).
  rewrite Hrun in Hrun1. injection Hrun1 as <- <- <-.
  destruct res as [sid|err]; [destruct (decide (sid = EmptyString))|];
    destruct Hres as (-> & _ & _); eexists ms, _, _; split_and!; try done.
  cbn. by rewrite (submitted_services_AddSchemas sid).
Qed.

(** The descriptor a run of [RegisterMicroserviceInstances] submits, when it
    gets that far. *)
Lemma RegisterMicroserviceInstances_submitted w w' t e sid inst inst' res :
  run RegisterMicroserviceInstances w = (w', t, e) →
  CallRegisterServiceInstance sid inst inst' res ∈ t →
  ∃ eps, MakeEndpointMap (CseProtocols w) = Ok eps
    ∧ inst = attach_DataCenterInfo (DataCenter w)
               (new_instance (if InstanceEndpoints w is Some _
                              then InstanceEndpoints w else eps) w).
Proof.
  intros Hrun Hin.
  destruct (RegisterMicroserviceInstances_run w)
    as (w1 & t1 & e1 & Hrun1 & r0 & dres & _ & Hcases).
  rewrite Hrun in Hrun1. injection Hrun1 as <- <- <-. cbn zeta in Hcases.
  destruct dres as [sid0|err].
  2:{ destruct Hcases as (-> & _). trace_inv. }
  destruct (MakeEndpointMap (CseProtocols w)) as [eps|err].
  2:{ destruct Hcases as (-> & _). trace_inv. }
  exists eps. split; [done|].
  destruct Hcases as (r1 & inst1 & rres & _ & Hcases).
  destruct rres as [iid|err].
  2:{ destruct Hcases as (-> & _). trace_inv. }
  destruct Hcases as (_ & Hcases).
  destruct (InstanceProperties (ServiceDescription w)) as [properties|].
  - destruct Hcases as (r2 & ures & _ & -> & _).
    trace_inv.
  - destruct Hcases as (-> & _). trace_inv.
Qed.

(** What a run that returns nil has stored, in terms of the instance ID the
    registry returned and of the descriptor as the registry left it. *)
Lemma RegisterMicroserviceInstances_stored w w' t sid inst inst' iid :
  run RegisterMicroserviceInstances w = (w', t, None) →
  CallRegisterServiceInstance sid inst inst' (Ok iid) ∈ t →
  SelfInstancesCache w'
  = <[ sid := StringSlice
                (record_instance
                   (assert_string_slice
                      (cache_Get (SelfInstancesCache w) (msi_ServiceID inst')))
                   iid) ]> (SelfInstancesCache w).
Proof.
  intros Hrun Hin.
  destruct (RegisterMicroserviceInstances_run w)
    as (w1 & t1 & e1 & Hrun1 & r0 & dres & _ & Hcases).
  rewrite Hrun in Hrun1. injection Hrun1 as <- <- <-. cbn zeta in Hcases.
  destruct dres as [sid0|err]; [|by destruct Hcases as (_ & ? & _)].
  destruct (MakeEndpointMap (CseProtocols w)) as [eps|err];
    [|by destruct Hcases as (_ & ? & _)].
  destruct Hcases as (r1 & inst1 & rres & _ & Hcases).
  destruct rres as [iid0|err]; [|by destruct Hcases as (_ & ? & _)].
  destruct Hcases as (_ & Hcases).
  destruct (InstanceProperties (ServiceDescription w)) as [properties|].
  - destruct Hcases as (r2 & ures & _ & -> & Hcases).
    destruct ures as [err|]; [by destruct Hcases|].
    destruct Hcases as (_ & ->). trace_inv.
  - destruct Hcases as (-> & _ & ->). trace_inv.
Qed.

(** ** Properties of the two functions *)

(** C2. When [RegisterMicroserviceInstances] returns nil twice in a row, with
    discovery resolving the same service ID [sid], the registry returning the
    same instance ID [i] and leaving the same [ServiceID] in the descriptor
    both times, the cache entry for [sid] holds [i] exactly once, and the
    second run leaves that entry as the first one left it.  The list the
    first run reads, under the key the descriptor carries, holds no ID
    twice. *)
Theorem C2_registered_twice_cached_once w0 w1 w2 t1 t2 sid i d1 d1' d2 d2' :
  run RegisterMicroserviceInstances w0 = (w1, t1, None) →
  CallRegisterServiceInstance sid d1 d1' (Ok i) ∈ t1 →
  run RegisterMicroserviceInstances w1 = (w2, t2, None) →
  CallRegisterServiceInstance sid d2 d2' (Ok i) ∈ t2 →
  msi_ServiceID d1' = msi_ServiceID d2' →
  NoDup (cached_instances w0 (msi_ServiceID d1')) →
  occurrences i (cached_instances w2 sid) = 1
  ∧ cached_instances w2 sid = cached_instances w1 sid.
Proof.
  intros Hrun1 Hin1 Hrun2 Hin2 Hkey Hnd.
  pose proof (RegisterMicroserviceInstances_stored _ _ _ _ _ _ _ Hrun1 Hin1) as Hs1.
  pose proof (RegisterMicroserviceInstances_stored _ _ _ _ _ _ _ Hrun2 Hin2) as Hs2.
  assert (cached_instances w1 sid
          = record_instance (cached_instances w0 (msi_ServiceID d1')) i) as Hfirst.
  { unfold cached_instances, cache_Get. by rewrite Hs1, lookup_insert_eq. }
  assert (cached_instances w2 sid = cached_instances w1 sid) as Hsecond.
  { rewrite Hfirst. unfold cached_instances at 1. unfold cache_Get at 1.
    rewrite Hs2, lookup_insert_eq. cbn [assert_string_slice]. rewrite <- Hkey.
    fold (cached_instances w1 (msi_ServiceID d1')).
    destruct (decide (sid = msi_ServiceID d1')) as [Heq|Hne].
    - rewrite <- Heq in Hfirst |- *. rewrite Hfirst.
      apply record_instance_idempotent.
    - f_equal. unfold cached_instances, cache_Get.
      rewrite Hs1. by rewrite lookup_insert_ne. }
  split; [|done]. rewrite Hsecond, Hfirst. apply occurrences_NoDup.
  - by apply record_instance_NoDup.
  - apply record_instance_contains.
Qed.

(** C3, as amended.  With scope "full" the submitted descriptor's metadata
    and the configured properties both map allowCrossApp to "true"; with any
    other scope the configured properties map allowCrossApp to "false" and the
    submitted descriptor's metadata has no allowCrossApp entry. *)
Theorem C3_allowCrossApp_by_scope w w' t e :
  run RegisterMicroservice w = (w', t, e) →
  ∃ ms props,
    submitted_services t = [ms]
    ∧ Properties (ServiceDescription w') = Some props
    ∧ (RegistratorScope w = ScopeFull →
       ms_Metadata ms !! "allowCrossApp" = Some TRUE
       ∧ props !! "allowCrossApp" = Some TRUE)
    ∧ (RegistratorScope w ≠ ScopeFull →
       ms_Metadata ms !! "allowCrossApp" = None
       ∧ props !! "allowCrossApp" = Some FALSE).
Proof.
  intros Hrun.
  destruct (RegisterMicroservice_submitted _ _ _ _ Hrun)
    as (ms & res & t' & _ & Hsub & _ & _ & Hmeta).
  destruct (RegisterMicroservice_run w)
    as (ms1 & props & r & res1 & w1 & t1 & e1 & Hrun1 & _ & _ & _ & _ & _
        & _ & Hprops & Hprops' & _).
  rewrite Hrun in Hrun1. injection Hrun1 as <- <- <-.
  exists ms, props. rewrite Hmeta. subst props. split_and!; [done..| |].
  - intros Hscope. rewrite !decide_True by done.
    by rewrite lookup_singleton_eq, lookup_insert_eq.
  - intros Hscope. rewrite !decide_False by done.
    by rewrite lookup_empty, lookup_insert_eq.
Qed.

(** C4. When [RegisterService] returns no error and the empty service ID,
    [RegisterMicroservice] returns [errEmptyServiceIDFromRegistry], the
    runtime service ID is what it was, and no schema is registered. *)
Theorem C4_empty_service_id w w' t e ms :
  run RegisterMicroservice w = (w', t, e) →
  CallRegisterService ms (Ok EmptyString) ∈ t →
  e = Some errEmptyServiceIDFromRegistry
  ∧ ServiceID (runtime w') = ServiceID (runtime w)
  ∧ schema_registrations t = [].
Proof.
  intros Hrun Hin.
  destruct (RegisterMicroservice_run w)
    as (ms1 & props & r & res & w1 & t1 & e1 & Hrun1 & _ & _ & _ & _ & _
        & _ & _ & _ & _ & Hres).
  rewrite Hrun in Hrun1. injection Hrun1 as <- <- <-.
  destruct res as [sid|err]; [destruct (decide (sid = EmptyString)) as [->|Hsid]|].
  - destruct Hres as (-> & -> & ->). done.
  - destruct Hres as (-> & _). apply elem_of_cons in Hin as [Heq|Hin].
    + by simplify_eq.
    + by apply AddSchemas_calls_no_service in Hin.
  - destruct Hres as (-> & _). trace_inv.
Qed.

(** C5. The descriptor [RegisterMicroservice] submits has as its alias the
    application ID, ":" and the service name; the configuration has no alias
    to supply, so this holds for every configured descriptor. *)
Theorem C5_default_alias w w' t e :
  run RegisterMicroservice w = (w', t, e) →
  ∃ ms, submitted_services t = [ms]
    ∧ ms_Alias ms = App (runtime w) +:+ ":" +:+ Name (ServiceDescription w).
Proof.
  intros Hrun.
  destruct (RegisterMicroservice_submitted _ _ _ _ Hrun)
    as (ms & res & t' & _ & Hsub & Halias & _).
  by exists ms.
Qed.

(** C6. With an endpoint override that is not nil, the endpoints map of every
    instance descriptor the run submits is the override, whatever the
    configured protocols. *)
Theorem C6_endpoint_override w w' t e override sid inst inst' res :
  InstanceEndpoints w = Some override →
  run RegisterMicroserviceInstances w = (w', t, e) →
  CallRegisterServiceInstance sid inst inst' res ∈ t →
  msi_EndpointsMap inst = Some override.
Proof.
  intros Hov Hrun Hin.
  destruct (RegisterMicroserviceInstances_submitted _ _ _ _ _ _ _ _ Hrun Hin)
    as (eps & _ & ->).
  rewrite Hov. unfold attach_DataCenterInfo. by case_decide.
Qed.

(** C7. The submitted instance descriptor carries a [DataCenterInfo] exactly
    when the configured datacenter name and availability zone are both
    non-empty. *)
Theorem C7_DataCenterInfo_iff w w' t e sid inst inst' res :
  run RegisterMicroserviceInstances w = (w', t, e) →
  CallRegisterServiceInstance sid inst inst' res ∈ t →
  is_Some (msi_DataCenterInfo inst)
  ↔ dc_Name (DataCenter w) ≠ EmptyString ∧ dc_AvailableZone (DataCenter w) ≠ EmptyString.
Proof.
  intros Hrun Hin.
  destruct (RegisterMicroserviceInstances_submitted _ _ _ _ _ _ _ _ Hrun Hin)
    as (eps & _ & ->).
  unfold attach_DataCenterInfo. case_decide; cbn.
  - split; [done|]. intros _. by eexists.
  - split; [|done]. by intros [? [=]].
Qed.

(** C8. When [GetSchemaIDs] fails, [RegisterMicroservice] goes on: it submits
    a descriptor with no schemas, registers no schema, and what it returns is
    decided by the outcome of [RegisterService] alone. *)
Theorem C8_schema_lookup_failure w w' t e err :
  GetSchemaIDs (Name (ServiceDescription w)) = Err err →
  run RegisterMicroservice w = (w', t, e) →
  ∃ ms res,
    t = [CallRegisterService ms res]
    ∧ ms_Schemas ms = []
    ∧ schema_registrations t = []
    ∧ e = match res with
          | Err e' => Some e'
          | Ok sid => if decide (sid = EmptyString)
                      then Some errEmptyServiceIDFromRegistry else None
          end.
Proof.
  intros Hschemas Hrun.
  destruct (RegisterMicroservice_run w)
    as (ms & props & r & res & w1 & t1 & e1 & Hrun1 & _ & _ & _ & _ & Hsch
        & _ & _ & _ & _ & Hres).
  rewrite Hrun in Hrun1. injection Hrun1 as <- <- <-.
  rewrite Hschemas in Hsch. exists ms, res.
  destruct res as [sid|e']; [destruct (decide (sid = EmptyString))|].
  - by destruct Hres as (-> & -> & _).
  - destruct Hres as (-> & -> & _). by rewrite Hsch.
  - by destruct Hres as (-> & -> & _).
Qed.

(** C9. When the update of the instance properties fails,
    [RegisterMicroserviceInstances] returns that error and leaves the cache
    as it was, while the runtime instance ID is already the ID the registry
    returned and the runtime instance status is already [StatusRunning]. *)
Theorem C9_property_update_failure w w' t e sid iid properties err :
  run RegisterMicroserviceInstances w = (w', t, e) →
  CallUpdateMicroServiceInstanceProperties sid iid properties (Some err) ∈ t →
  e = Some err
  ∧ SelfInstancesCache w' = SelfInstancesCache w
  ∧ InstanceProperties (ServiceDescription w) = Some properties
  ∧ (∃ inst inst', CallRegisterServiceInstance sid inst inst' (Ok iid) ∈ t)
  ∧ InstanceID (runtime w') = iid
  ∧ InstanceStatus (runtime w') = StatusRunning.
Proof.
  intros Hrun Hin.
  destruct (RegisterMicroserviceInstances_run w)
    as (w1 & t1 & e1 & Hrun1 & r0 & dres & _ & Hcases).
  rewrite Hrun in Hrun1. injection Hrun1 as <- <- <-. cbn zeta in Hcases.
  destruct dres as [sid0|err0].
  2:{ destruct Hcases as (-> & _). trace_inv. }
  destruct (MakeEndpointMap (CseProtocols w)) as [eps|err0].
  2:{ destruct Hcases as (-> & _). trace_inv. }
  destruct Hcases as (r1 & inst1 & rres & _ & Hcases).
  destruct rres as [iid0|err0].
  2:{ destruct Hcases as (-> & _). trace_inv. }
  destruct Hcases as (Hrt & Hcases).
  destruct (InstanceProperties (ServiceDescription w)) as [properties0|].
  2:{ destruct Hcases as (-> & _). trace_inv. }
  destruct Hcases as (r2 & ures & _ & -> & Hcases).
  trace_inv. destruct Hcases as (-> & ->). rewrite Hrt.
  split_and!; try done.
  eexists _, _. apply list_elem_of_further, list_elem_of_here.
Qed.

(** C10. A [DataCenterInfo] attached to the submitted instance descriptor has
    the configured datacenter name as its name and as its region, and the
    configured availability zone as its zone. *)
Theorem C10_region_is_name w w' t e sid inst inst' res dInfo :
  run RegisterMicroserviceInstances w = (w', t, e) →
  CallRegisterServiceInstance sid inst inst' res ∈ t →
  msi_DataCenterInfo inst = Some dInfo →
  dci_Region dInfo = dci_Name dInfo
  ∧ dci_Name dInfo = dc_Name (DataCenter w)
  ∧ dci_AvailableZone dInfo = dc_AvailableZone (DataCenter w).
Proof.
  intros Hrun Hin.
  destruct (RegisterMicroserviceInstances_submitted _ _ _ _ _ _ _ _ Hrun Hin)
    as (eps & _ & ->).
  unfold attach_DataCenterInfo. case_decide; cbn; [|done].
  by intros [= <-].
Qed.

(** ** The rest of what a run does *)

(** The loop that copies the paths appends one copy per configured path. *)
Lemma copy_paths_foldl (svcPaths : list ServicePathStruct) (regpaths : list ServicePath) :
  foldl (λ regpaths svcPath,
           regpaths ++ [{| Path := cfg_Path svcPath;
                           Property := cfg_Property svcPath |}])
        regpaths svcPaths
  = regpaths ++ ((λ svcPath, {| Path := cfg_Path svcPath;
                                Property := cfg_Property svcPath |}) <$> svcPaths).
Proof.
  revert regpaths. induction svcPaths as [|p l IH]; intros regpaths; cbn [foldl fmap list_fmap].
  - by rewrite app_nil_r.
  - rewrite IH. by rewrite <- app_assoc.
Qed.

(** Every field of the descriptor [RegisterMicroservice] submits, and every
    variable it leaves as it was. *)
Lemma RegisterMicroservice_frame w w' t e :
  run RegisterMicroservice w = (w', t, e) →
  ∃ ms res t',
    t = CallRegisterService ms res :: t'
    ∧ (ms_ServiceID ms = ServiceID (runtime w)
       ∧ ms_AppID ms = App (runtime w)
       ∧ ms_ServiceName ms = Name (ServiceDescription w)
       ∧ ms_Version ms = Version (ServiceDescription w)
       ∧ ms_Paths ms = copy_paths (ServicePaths (ServiceDescription w))
       ∧ ms_Environment ms = Environment (ServiceDescription w)
       ∧ ms_Status ms = DefaultStatus
       ∧ ms_Level ms = (if decide (Level (ServiceDescription w) = EmptyString)
                        then DefaultLevel else Level (ServiceDescription w))
       ∧ ms_Framework ms = {| fw_Version := mf_Version NewFramework;
                              fw_Name := mf_Name NewFramework |}
       ∧ ms_RegisterBy ms = mf_Register NewFramework)
    ∧ (microServiceDependencies w' = Some emptyMicroServiceDependency
       ∧ Name (ServiceDescription w') = Name (ServiceDescription w)
       ∧ Version (ServiceDescription w') = Version (ServiceDescription w)
       ∧ Environment (ServiceDescription w') = Environment (ServiceDescription w)
       ∧ Level (ServiceDescription w')
         = (if decide (Level (ServiceDescription w) = EmptyString)
            then DefaultLevel else Level (ServiceDescription w))
       ∧ InstanceProperties (ServiceDescription w')
         = InstanceProperties (ServiceDescription w)
       ∧ ServicePaths (ServiceDescription w') = ServicePaths (ServiceDescription w))
    ∧ (CseProtocols w' = CseProtocols w
       ∧ DataCenter w' = DataCenter w
       ∧ NodeIP w' = NodeIP w
       ∧ RegistratorScope w' = RegistratorScope w
       ∧ InstanceEndpoints w' = InstanceEndpoints w
       ∧ SelfInstancesCache w' = SelfInstancesCache w)
    ∧ (App (runtime w') = App (runtime w)
       ∧ HostName (runtime w') = HostName (runtime w)
       ∧ InstanceID (runtime w') = InstanceID (runtime w)
       ∧ InstanceStatus (runtime w') = InstanceStatus (runtime w)).
Proof.
  unfold run, RegisterMicroservice.
  do 3 mstep.
  destruct (decide (Level (ServiceDescription w) = EmptyString)) as [Hlevel|Hlevel];
    do 2 mstep;
    (destruct (Properties (ServiceDescription w)) as [props0|] eqn:Hprops;
     repeat mstep;
     destruct (decide (RegistratorScope w = ScopeFull)) as [Hscope|Hscope];
     repeat mstep).
  all: rewrite (decide_True (P := String.length EmptyString = 0)) by done.
  all: match goal with
       | |- context [call_RegisterService ?m] =>
         destruct (RegisterService m (registry w)) as [r res] eqn:Hcall;
         erewrite bind_call_RegisterService by exact Hcall
       end.
  all: destruct res as [sid|err]; [destruct (decide (sid = EmptyString)) as [Hsid|Hsid]|].
  all: try (rewrite bind_modify;
            match goal with
            | |- context [(range ?l (λ s, call_AddSchemas ?sid s (@?info s)) ≫= _) ?w0] =>
              destruct (range_AddSchemas_ret sid info l w0) as [r2 ->]
            end).
  all: intros [= <- <- <-]; eexists _, _, _; (split; [reflexivity|]); readback.
  all: done.
Qed.

(** Every variable [RegisterMicroserviceInstances] leaves as it was. *)
Lemma RegisterMicroserviceInstances_frame w w' t e :
  run RegisterMicroserviceInstances w = (w', t, e) →
  ServiceDescription w' = ServiceDescription w
  ∧ CseProtocols w' = CseProtocols w
  ∧ DataCenter w' = DataCenter w
  ∧ NodeIP w' = NodeIP w
  ∧ RegistratorScope w' = RegistratorScope w
  ∧ InstanceEndpoints w' = InstanceEndpoints w
  ∧ microServiceDependencies w' = microServiceDependencies w
  ∧ ServiceID (runtime w') = ServiceID (runtime w)
  ∧ App (runtime w') = App (runtime w)
  ∧ HostName (runtime w') = HostName (runtime w).
Proof.
  unfold run, RegisterMicroserviceInstances.
  do 2 mstep.
  destruct (GetMicroServiceID (App (runtime w)) (Name (ServiceDescription w))
              (Version (ServiceDescription w)) (Environment (ServiceDescription w))
              (registry w)) as [r0 dres] eqn:Hget.
  erewrite bind_call_GetMicroServiceID by exact Hget.
  destruct dres as [sid|err]; [|by intros [= <- <- <-]].
  mstep.
  destruct (MakeEndpointMap (CseProtocols w)) as [eps|err] eqn:Hmake;
    [|rewrite bind_lift_Err; by intros [= <- <- <-]].
  do 4 mstep.
  rewrite new_instance_set_registry.
  match goal with
  | |- context [call_RegisterServiceInstance sid ?i] =>
    destruct (RegisterServiceInstance sid i r0) as [[r1 inst'] rres] eqn:Hreg
  end.
  erewrite bind_call_RegisterServiceInstance by exact Hreg.
  destruct rres as [iid|err]; [|by intros [= <- <- <-]].
  do 3 mstep.
  destruct (InstanceProperties (ServiceDescription w)) as [properties|] eqn:Hip.
  - destruct (UpdateMicroServiceInstanceProperties sid iid properties r1)
      as [r2 ures] eqn:Hupd.
    erewrite bind_call_UpdateMicroServiceInstanceProperties by exact Hupd.
    destruct ures as [err|]; [by intros [= <- <- <-]|].
    repeat mstep. unfold mret, M_ret. by intros [= <- <- <-].
  - repeat mstep. unfold mret, M_ret. by intros [= <- <- <-].
Qed.

Lemma submitted_instances_AddSchemas sid (info : string → string)
    (schemas : list string) :
  submitted_instances
    ((λ schemaID, CallAddSchemas sid schemaID (info schemaID)) <$> schemas) = [].
Proof.
  unfold submitted_instances. induction schemas as [|s l IH]; [done|]. by cbn.
Qed.

(** [RegisterMicroservice] returns nil only after a registration that gave a
    service ID that is not empty. *)
Lemma RegisterMicroservice_success w w' t :
  run RegisterMicroservice w = (w', t, None) →
  ∃ ms sid,
    sid ≠ EmptyString
    ∧ t = CallRegisterService ms (Ok sid) ::
            ((λ schemaID, CallAddSchemas sid schemaID
                            (default EmptyString (DefaultSchemaIDsMap !! schemaID)))
               <$> ms_Schemas ms)
    ∧ runtime w' = set_ServiceID sid (runtime w).
Proof.
  intros Hrun.
  destruct (RegisterMicroservice_run w)
    as (ms & props & r & res & w1 & t1 & e1 & Hrun1 & _ & _ & _ & _ & _
        & _ & _ & _ & _ & Hres).
  rewrite Hrun in Hrun1. injection Hrun1 as <- <- <-.
  destruct res as [sid|err]; [destruct (decide (sid = EmptyString)) as [->|Hsid]|].
  - by destruct Hres as (_ & ? & _).
  - destruct Hres as (-> & _ & ->). by exists ms, sid.
  - by destruct Hres as (_ & ? & _).
Qed.

(** ** Further properties of RegisterMicroservice *)

(** X1. An error of [RegisterService] is returned as it is; nothing else is
    called and the runtime identity is left as it was. *)
Theorem X1_registration_error_returned w w' t e ms err :
  run RegisterMicroservice w = (w', t, e) →
  CallRegisterService ms (Err err) ∈ t →
  e = Some err
  ∧ t = [CallRegisterService ms (Err err)]
  ∧ runtime w' = runtime w.
Proof.
  intros Hrun Hin.
  destruct (RegisterMicroservice_run w)
    as (ms1 & props & r & res & w1 & t1 & e1 & Hrun1 & _ & _ & _ & _ & _
        & _ & _ & _ & _ & Hres).
  rewrite Hrun in Hrun1. injection Hrun1 as <- <- <-.
  destruct res as [sid|err1]; [destruct (decide (sid = EmptyString)) as [->|Hsid]|].
  - destruct Hres as (-> & _). trace_inv.
  - destruct Hres as (-> & _). apply elem_of_cons in Hin as [Heq|Hin].
    + by simplify_eq.
    + by apply AddSchemas_calls_no_service in Hin.
  - destruct Hres as (-> & -> & ->). trace_inv.
Qed.

(** X2. When [RegisterService] gives a service ID that is not empty, the
    function returns nil whatever the schema registrations return, the
    runtime service ID becomes that ID, and after the registration there is
    one [AddSchemas] call per schema ID found, in order, each with that
    service ID and with what [DefaultSchemaIDsMap] holds for the schema ID
    (the empty string when it holds nothing). *)
Theorem X2_schemas_registered_in_order w w' t e ms sid :
  run RegisterMicroservice w = (w', t, e) →
  CallRegisterService ms (Ok sid) ∈ t →
  sid ≠ EmptyString →
  e = None
  ∧ ServiceID (runtime w') = sid
  ∧ ms_Schemas ms = match GetSchemaIDs (Name (ServiceDescription w)) with
                    | Ok ids => ids
                    | Err _ => []
                    end
  ∧ t = CallRegisterService ms (Ok sid) ::
          ((λ schemaID, CallAddSchemas sid schemaID
                          (default EmptyString (DefaultSchemaIDsMap !! schemaID)))
             <$> ms_Schemas ms).
Proof.
  intros Hrun Hin Hsid.
  destruct (RegisterMicroservice_run w)
    as (ms1 & props & r & res & w1 & t1 & e1 & Hrun1 & _ & _ & _ & _ & Hsch
        & _ & _ & _ & _ & Hres).
  rewrite Hrun in Hrun1. injection Hrun1 as <- <- <-.
  destruct res as [sid1|err1]; [destruct (decide (sid1 = EmptyString)) as [->|Hsid1]|].
  - destruct Hres as (-> & _). trace_inv.
  - destruct Hres as (-> & -> & ->). apply elem_of_cons in Hin as [Heq|Hin].
    + by simplify_eq.
    + by apply AddSchemas_calls_no_service in Hin.
  - destruct Hres as (-> & _). trace_inv.
Qed.

(** X3. The level of the submitted descriptor is the configured level, or
    [DefaultLevel] when none is configured, and the configuration holds the
    same level after the call. *)
Theorem X3_level_defaulted w w' t e :
  run RegisterMicroservice w = (w', t, e) →
  ∃ ms, submitted_services t = [ms]
    ∧ Level (ServiceDescription w') = ms_Level ms
    ∧ (Level (ServiceDescription w) = EmptyString → ms_Level ms = DefaultLevel)
    ∧ (Level (ServiceDescription w) ≠ EmptyString →
       ms_Level ms = Level (ServiceDescription w)).
Proof.
  intros Hrun.
  destruct (RegisterMicroservice_submitted _ _ _ _ Hrun)
    as (ms & res & t' & Ht & Hsub & _).
  destruct (RegisterMicroservice_frame _ _ _ _ Hrun)
    as (ms1 & res1 & t1 & Ht1 & Hms & Hsd & _).
  rewrite Ht in Ht1. injection Ht1 as <- <- <-.
  destruct Hms as (_ & _ & _ & _ & _ & _ & _ & Hlevel & _).
  destruct Hsd as (_ & _ & _ & _ & Hlevel' & _).
  exists ms. rewrite Hlevel, Hlevel'. split_and!; [done..| |].
  - intros Hl. by rewrite decide_True.
  - intros Hl. by rewrite decide_False.
Qed.

(** X4. After the call the configured properties are a map (not nil) that
    holds, under every key other than allowCrossApp, what was configured. *)
Theorem X4_configured_properties_kept w w' t e key :
  run RegisterMicroservice w = (w', t, e) →
  key ≠ "allowCrossApp" →
  ∃ props, Properties (ServiceDescription w') = Some props
    ∧ props !! key = default ∅ (Properties (ServiceDescription w)) !! key.
Proof.
  intros Hrun Hkey.
  destruct (RegisterMicroservice_run w)
    as (ms1 & props & r & res & w1 & t1 & e1 & Hrun1 & _ & _ & _ & _ & _
        & _ & Hprops & Hprops' & _).
  rewrite Hrun in Hrun1. injection Hrun1 as <- <- <-.
  exists props. split; [done|]. subst props. by rewrite lookup_insert_ne.
Qed.

(** X5. The paths of the submitted descriptor are the configured paths, one
    for one and in order, each with its path and its property. *)
Theorem X5_paths_copied_in_order w w' t e :
  run RegisterMicroservice w = (w', t, e) →
  ∃ ms, submitted_services t = [ms]
    ∧ ms_Paths ms
      = (λ svcPath, {| Path := cfg_Path svcPath; Property := cfg_Property svcPath |})
          <$> ServicePaths (ServiceDescription w).
Proof.
  intros Hrun.
  destruct (RegisterMicroservice_submitted _ _ _ _ Hrun)
    as (ms & res & t' & Ht & Hsub & _).
  destruct (RegisterMicroservice_frame _ _ _ _ Hrun)
    as (ms1 & res1 & t1 & Ht1 & Hms & _).
  rewrite Ht in Ht1. injection Ht1 as <- <- <-.
  destruct Hms as (_ & _ & _ & _ & Hpaths & _).
  exists ms. split; [done|]. rewrite Hpaths. unfold copy_paths.
  by rewrite copy_paths_foldl.
Qed.

(** X6. A second call after a call that returned nil submits the descriptor
    of the first call again, now carrying the service ID the registry
    returned. *)
Theorem X6_reregistration_carries_service_id w0 w1 w2 t1 t2 e2 ms1 sid :
  run RegisterMicroservice w0 = (w1, t1, None) →
  CallRegisterService ms1 (Ok sid) ∈ t1 →
  run RegisterMicroservice w1 = (w2, t2, e2) →
  submitted_services t2
  = [ {| ms_ServiceID := sid;
         ms_AppID := ms_AppID ms1;
         ms_ServiceName := ms_ServiceName ms1;
         ms_Version := ms_Version ms1;
         ms_Paths := ms_Paths ms1;
         ms_Environment := ms_Environment ms1;
         ms_Status := ms_Status ms1;
         ms_Level := ms_Level ms1;
         ms_Schemas := ms_Schemas ms1;
         ms_Framework := ms_Framework ms1;
         ms_RegisterBy := ms_RegisterBy ms1;
         ms_Metadata := ms_Metadata ms1;
         ms_Alias := ms_Alias ms1 |} ].
Proof.
  intros Hrun1 Hin1 Hrun2.
  destruct (RegisterMicroservice_success _ _ _ Hrun1) as (ms & sid1 & Hsid & Ht1 & Hrt).
  assert (ms = ms1 ∧ sid1 = sid) as [-> ->].
  { rewrite Ht1 in Hin1. apply elem_of_cons in Hin1 as [Heq|Hin1].
    - by simplify_eq.
    - by apply AddSchemas_calls_no_service in Hin1. }
  destruct (RegisterMicroservice_submitted _ _ _ _ Hrun1)
    as (ms' & res' & t' & Ht' & _ & Halias1 & Hsch1 & Hmeta1).
  rewrite Ht1 in Ht'. injection Ht' as <- <- <-.
  destruct (RegisterMicroservice_frame _ _ _ _ Hrun1)
    as (ms' & res' & t'' & Ht' & Hms1 & Hsd1 & Hw1 & Hrt1).
  rewrite Ht1 in Ht'. injection Ht' as <- <- <-.
  destruct (RegisterMicroservice_submitted _ _ _ _ Hrun2)
    as (ms2 & res2 & t2' & Ht2 & Hsub2 & Halias2 & Hsch2 & Hmeta2).
  destruct (RegisterMicroservice_frame _ _ _ _ Hrun2)
    as (ms' & res' & t'' & Ht' & Hms2 & _).
  rewrite Ht2 in Ht'. injection Ht' as <- <- <-.
  destruct Hms1 as (Hid1 & Happ1 & Hname1 & Hver1 & Hpaths1 & Henv1 & Hst1 & Hlev1
                    & Hfw1 & Hby1).
  destruct Hms2 as (Hid2 & Happ2 & Hname2 & Hver2 & Hpaths2 & Henv2 & Hst2 & Hlev2
                    & Hfw2 & Hby2).
  destruct Hsd1 as (_ & Hn & Hv & He & Hl & _ & Hp).
  destruct Hw1 as (_ & _ & _ & Hscope & _).
  destruct Hrt1 as (Happ & _).
  assert (ms_ServiceID ms2 = sid) as Eid by (by rewrite Hid2, Hrt).
  assert (ms_Level ms2 = ms_Level ms1) as Elev.
  { rewrite Hlev2, Hl, Hlev1.
    destruct (decide (Level (ServiceDescription w0) = EmptyString)) as [Hl0|Hl0];
      [|by rewrite decide_False].
    by destruct (decide (DefaultLevel = EmptyString)). }
  rewrite Hn in Hsch2. rewrite Hscope in Hmeta2. rewrite Hp in Hpaths2.
  rewrite Hsub2. f_equal. clear Hlev1 Hlev2 Hid1 Hid2 Hrun1 Hrun2 Hin1.
  destruct ms1, ms2; cbn in *. f_equal; congruence.
Qed.

(** X25. The submitted service descriptor carries the runtime service ID as
    it was before the call, the runtime application ID, the configured name,
    version and environment, the default status, and the name, version and
    registering party [NewFramework] gives. *)
Theorem X25_service_descriptor_fields w w' t e :
  run RegisterMicroservice w = (w', t, e) →
  ∃ ms, submitted_services t = [ms]
    ∧ ms_ServiceID ms = ServiceID (runtime w)
    ∧ ms_AppID ms = App (runtime w)
    ∧ ms_ServiceName ms = Name (ServiceDescription w)
    ∧ ms_Version ms = Version (ServiceDescription w)
    ∧ ms_Environment ms = Environment (ServiceDescription w)
    ∧ ms_Status ms = DefaultStatus
    ∧ ms_Framework ms = {| fw_Version := mf_Version NewFramework;
                           fw_Name := mf_Name NewFramework |}
    ∧ ms_RegisterBy ms = mf_Register NewFramework.
Proof.
  intros Hrun.
  destruct (RegisterMicroservice_submitted _ _ _ _ Hrun)
    as (ms & res & t' & Ht & Hsub & _).
  destruct (RegisterMicroservice_frame _ _ _ _ Hrun)
    as (ms1 & res1 & t1 & Ht1 & Hms & _).
  rewrite Ht in Ht1. injection Ht1 as <- <- <-.
  destruct Hms as (? & ? & ? & ? & _ & ? & ? & _ & ? & ?).
  by exists ms.
Qed.

(** X7. [RegisterMicroservice] leaves the instance side alone: it makes no
    discovery or instance call, and the cache, the endpoint override and the
    runtime instance ID and status are what they were; it always leaves
    [microServiceDependencies] at a new empty value. *)
Theorem X7_service_registration_leaves_instance_state w w' t e :
  run RegisterMicroservice w = (w', t, e) →
  submitted_instances t = []
  ∧ SelfInstancesCache w' = SelfInstancesCache w
  ∧ InstanceEndpoints w' = InstanceEndpoints w
  ∧ InstanceID (runtime w') = InstanceID (runtime w)
  ∧ InstanceStatus (runtime w') = InstanceStatus (runtime w)
  ∧ microServiceDependencies w' = Some emptyMicroServiceDependency.
Proof.
  intros Hrun.
  destruct (RegisterMicroservice_frame _ _ _ _ Hrun)
    as (ms & res & t' & Ht & _ & Hsd & Hw & Hrt).
  destruct Hsd as (Hdep & _). destruct Hw as (_ & _ & _ & _ & Hov & Hcache).
  destruct Hrt as (_ & _ & Hiid & Hst).
  split_and!; try done.
  destruct (RegisterMicroservice_run w)
    as (ms1 & props & r & res1 & w1 & t1 & e1 & Hrun1 & _ & _ & _ & _ & _
        & _ & _ & _ & _ & Hres).
  rewrite Hrun in Hrun1. injection Hrun1 as <- <- <-.
  destruct res1 as [sid|err]; [destruct (decide (sid = EmptyString))|];
    destruct Hres as (-> & _); try done.
  cbn. apply submitted_instances_AddSchemas.
Qed.

(** ** Further properties of RegisterMicroserviceInstances *)

(** The trace of a run, call by call, with what the run leaves behind. *)
Ltac instance_run w Hrun Hget Hcases :=
  let w1 := fresh "w1" in
  let t1 := fresh "t1" in
  let e1 := fresh "e1" in
  let Hrun1 := fresh "Hrun1" in
  let r0 := fresh "r0" in
  let dres := fresh "dres" in
  destruct (RegisterMicroserviceInstances_run w)
    as (w1 & t1 & e1 & Hrun1 & r0 & dres & Hget & Hcases);
  rewrite Hrun in Hrun1; injection Hrun1 as <- <- <-; cbn zeta in Hcases;
  destruct dres as [?sid|?err];
    [destruct (MakeEndpointMap (CseProtocols w)) as [?eps|?err] eqn:?Hmake;
     [destruct Hcases as (?r1 & ?inst1 & ?rres & ?Hreg & Hcases);
      destruct rres as [?iid|?err];
      [destruct Hcases as (?Hrt & Hcases);
       destruct (InstanceProperties (ServiceDescription w)) as [?properties|] eqn:?Hip;
       [destruct Hcases as (?r2 & ?ures & ?Hupd & ?Ht & Hcases);
        destruct ures as [?err|]
       |]
      |]
     |]
    |].

(** X8. An error of [GetMicroServiceID] is returned as it is; nothing else is
    called, and the runtime identity and the cache are left as they were. *)
Theorem X8_discovery_error_returned w w' t e app name version env err :
  run RegisterMicroserviceInstances w = (w', t, e) →
  CallGetMicroServiceID app name version env (Err err) ∈ t →
  e = Some err
  ∧ t = [CallGetMicroServiceID app name version env (Err err)]
  ∧ runtime w' = runtime w
  ∧ SelfInstancesCache w' = SelfInstancesCache w.
Proof.
  intros Hrun Hin. instance_run w Hrun Hget Hcases.
  - subst. trace_inv.
  - subst. trace_inv.
  - destruct Hcases as (-> & _). trace_inv.
  - destruct Hcases as (-> & _). trace_inv.
  - destruct Hcases as (-> & _). trace_inv.
  - destruct Hcases as (-> & -> & -> & ->). trace_inv.
Qed.

(** X9. An error of [MakeEndpointMap] is returned as it is, also when an
    endpoint override is supplied: no instance is registered, and the runtime
    identity and the cache are left as they were. *)
Theorem X9_endpoint_map_error_returned w w' t e app name version env sid err :
  MakeEndpointMap (CseProtocols w) = Err err →
  run RegisterMicroserviceInstances w = (w', t, e) →
  CallGetMicroServiceID app name version env (Ok sid) ∈ t →
  e = Some err
  ∧ t = [CallGetMicroServiceID app name version env (Ok sid)]
  ∧ runtime w' = runtime w
  ∧ SelfInstancesCache w' = SelfInstancesCache w.
Proof.
  intros Hfail Hrun Hin. instance_run w Hrun Hget Hcases; try done.
  - injection Hfail as ->. destruct Hcases as (-> & -> & -> & ->). trace_inv.
  - destruct Hcases as (-> & _). trace_inv.
Qed.

(** X10. An error of [RegisterServiceInstance] is returned as it is: the
    runtime identity and the cache are left as they were and the instance
    properties are not sent. *)
Theorem X10_instance_registration_error_returned w w' t e sid inst inst' err :
  run RegisterMicroserviceInstances w = (w', t, e) →
  CallRegisterServiceInstance sid inst inst' (Err err) ∈ t →
  e = Some err
  ∧ runtime w' = runtime w
  ∧ SelfInstancesCache w' = SelfInstancesCache w
  ∧ property_updates t = [].
Proof.
  intros Hrun Hin. instance_run w Hrun Hget Hcases.
  - subst. trace_inv.
  - subst. trace_inv.
  - destruct Hcases as (-> & _). trace_inv.
  - destruct Hcases as (-> & -> & -> & ->). trace_inv.
  - destruct Hcases as (-> & _). trace_inv.
  - destruct Hcases as (-> & _). trace_inv.
Qed.

(** X11. Without an endpoint override, the endpoints map of the submitted
    descriptor is the map [MakeEndpointMap] computed from the configured
    protocols. *)
Theorem X11_computed_endpoints_submitted w w' t e sid inst inst' res :
  InstanceEndpoints w = None →
  run RegisterMicroserviceInstances w = (w', t, e) →
  CallRegisterServiceInstance sid inst inst' res ∈ t →
  MakeEndpointMap (CseProtocols w) = Ok (msi_EndpointsMap inst).
Proof.
  intros Hov Hrun Hin.
  destruct (RegisterMicroserviceInstances_submitted _ _ _ _ _ _ _ _ Hrun Hin)
    as (eps & Hmake & ->).
  rewrite Hov, Hmake. unfold attach_DataCenterInfo. by case_decide.
Qed.

(** X12. The submitted instance descriptor has no service ID, the runtime
    host name, the default status, and as metadata the node IP under nodeIP
    and nothing else. *)
Theorem X12_instance_descriptor_fields w w' t e sid inst inst' res :
  run RegisterMicroserviceInstances w = (w', t, e) →
  CallRegisterServiceInstance sid inst inst' res ∈ t →
  msi_ServiceID inst = EmptyString
  ∧ msi_HostName inst = HostName (runtime w)
  ∧ msi_Status inst = DefaultStatus
  ∧ msi_Metadata inst = {[ "nodeIP" := NodeIP w ]}.
Proof.
  intros Hrun Hin.
  destruct (RegisterMicroserviceInstances_submitted _ _ _ _ _ _ _ _ Hrun Hin)
    as (eps & Hmake & ->).
  unfold attach_DataCenterInfo. by case_decide.
Qed.

(** X13. When no instance properties are configured, no update of instance
    properties is sent. *)
Theorem X13_no_instance_properties_no_update w w' t e :
  InstanceProperties (ServiceDescription w) = None →
  run RegisterMicroserviceInstances w = (w', t, e) →
  property_updates t = [].
Proof.
  intros Hnone Hrun.
  instance_run w Hrun Hget Hcases; try done.
  - by destruct Hcases as (-> & _).
  - by destruct Hcases as (-> & _).
  - by destruct Hcases as (-> & _).
  - by destruct Hcases as (-> & _).
Qed.

(** X14. An update of instance properties is the third and last call of a
    run: it follows the discovery that resolved its service ID and the
    registration that returned its instance ID, and it carries the
    configured instance properties. *)
Theorem X14_update_follows_registration w w' t e sid iid properties res :
  run RegisterMicroserviceInstances w = (w', t, e) →
  CallUpdateMicroServiceInstanceProperties sid iid properties res ∈ t →
  InstanceProperties (ServiceDescription w) = Some properties
  ∧ ∃ inst inst',
      t = [CallGetMicroServiceID (App (runtime w)) (Name (ServiceDescription w))
             (Version (ServiceDescription w)) (Environment (ServiceDescription w))
             (Ok sid);
           CallRegisterServiceInstance sid inst inst' (Ok iid);
           CallUpdateMicroServiceInstanceProperties sid iid properties res].
Proof.
  intros Hrun Hin. instance_run w Hrun Hget Hcases.
  - subst. trace_inv. split; [done|]. by eexists _, _.
  - subst. trace_inv. split; [done|]. by eexists _, _.
  - destruct Hcases as (-> & _). trace_inv.
  - destruct Hcases as (-> & _). trace_inv.
  - destruct Hcases as (-> & _). trace_inv.
  - destruct Hcases as (-> & _). trace_inv.
Qed.

(** [RegisterMicroserviceInstances] returns nil only after an instance
    registration that returned an ID, which is then the runtime instance ID. *)
Lemma RegisterMicroserviceInstances_success w w' t :
  run RegisterMicroserviceInstances w = (w', t, None) →
  ∃ sid inst inst' iid,
    CallRegisterServiceInstance sid inst inst' (Ok iid) ∈ t
    ∧ runtime w' = set_InstanceStatus StatusRunning (set_InstanceID iid (runtime w)).
Proof.
  intros Hrun. instance_run w Hrun Hget Hcases.
  - by destruct Hcases.
  - subst t. eexists _, _, _, _. split; [|done].
    apply list_elem_of_further, list_elem_of_here.
  - destruct Hcases as (-> & _). eexists _, _, _, _. split; [|done].
    apply list_elem_of_further, list_elem_of_here.
  - by destruct Hcases as (_ & ? & _).
  - by destruct Hcases as (_ & ? & _).
  - by destruct Hcases as (_ & ? & _).
Qed.

(** The first call of a run is the discovery call, and it resolves the
    service ID of any instance registration that follows. *)
Lemma RegisterMicroserviceInstances_head w w' t e :
  run RegisterMicroserviceInstances w = (w', t, e) →
  ∃ res,
    head t = Some (CallGetMicroServiceID (App (runtime w))
                     (Name (ServiceDescription w)) (Version (ServiceDescription w))
                     (Environment (ServiceDescription w)) res)
    ∧ ∀ sid inst inst' rres,
        CallRegisterServiceInstance sid inst inst' rres ∈ t → res = Ok sid.
Proof.
  intros Hrun. instance_run w Hrun Hget Hcases.
  - subst t. eexists. split; [done|]. intros ???? Hin. trace_inv.
  - subst t. eexists. split; [done|]. intros ???? Hin. trace_inv.
  - destruct Hcases as (-> & _). eexists. split; [done|]. intros ???? Hin. trace_inv.
  - destruct Hcases as (-> & _). eexists. split; [done|]. intros ???? Hin. trace_inv.
  - destruct Hcases as (-> & _). eexists. split; [done|]. intros ???? Hin. trace_inv.
  - destruct Hcases as (-> & _). eexists. split; [done|]. intros ???? Hin. trace_inv.
Qed.

(** X15. When the function returns nil, an instance has been registered, the
    runtime instance ID is the ID the registry returned, the runtime instance
    status is [StatusRunning], and the cache holds that ID under the resolved
    service ID. *)
Theorem X15_success_records_instance w w' t :
  run RegisterMicroserviceInstances w = (w', t, None) →
  ∃ sid inst inst' iid,
    CallRegisterServiceInstance sid inst inst' (Ok iid) ∈ t
    ∧ InstanceID (runtime w') = iid
    ∧ InstanceStatus (runtime w') = StatusRunning
    ∧ iid ∈ cached_instances w' sid.
Proof.
  intros Hrun.
  destruct (RegisterMicroserviceInstances_success _ _ _ Hrun)
    as (sid & inst & inst' & iid & Hin & Hrt).
  exists sid, inst, inst', iid. rewrite Hrt. split_and!; try done.
  unfold cached_instances, cache_Get.
  rewrite (RegisterMicroserviceInstances_stored _ _ _ _ _ _ _ Hrun Hin).
  rewrite lookup_insert_eq. cbn [assert_string_slice].
  apply record_instance_contains.
Qed.

(** X17. A run that returns nil stores under the resolved service ID a list
    that holds no instance ID twice, whenever the list it read, under the
    key the descriptor carries, holds none twice. *)
Theorem X17_stored_list_duplicate_free w w' t sid inst inst' iid :
  run RegisterMicroserviceInstances w = (w', t, None) →
  CallRegisterServiceInstance sid inst inst' (Ok iid) ∈ t →
  NoDup (cached_instances w (msi_ServiceID inst')) →
  NoDup (cached_instances w' sid).
Proof.
  intros Hrun Hin Hnd.
  unfold cached_instances at 1. unfold cache_Get at 1.
  rewrite (RegisterMicroserviceInstances_stored _ _ _ _ _ _ _ Hrun Hin).
  rewrite lookup_insert_eq. cbn [assert_string_slice].
  by apply record_instance_NoDup.
Qed.

(** X18. When the registry leaves the resolved service ID in the descriptor's
    [ServiceID], a run that returns nil updates the entry of that service ID
    as the specification describes: the list keeps what it held and gets the
    new instance ID at its end unless it holds it. *)
Theorem X18_stamped_descriptor_keeps_cached w w' t sid inst inst' iid :
  run RegisterMicroserviceInstances w = (w', t, None) →
  CallRegisterServiceInstance sid inst inst' (Ok iid) ∈ t →
  msi_ServiceID inst' = sid →
  cached_instances w' sid
  = if decide (iid ∈ cached_instances w sid)
    then cached_instances w sid
    else cached_instances w sid ++ [iid].
Proof.
  intros Hrun Hin Hkey.
  unfold cached_instances at 1. unfold cache_Get at 1.
  rewrite (RegisterMicroserviceInstances_stored _ _ _ _ _ _ _ Hrun Hin).
  rewrite lookup_insert_eq, Hkey. cbn [assert_string_slice].
  fold (cached_instances w sid). case_decide.
  - by apply record_instance_elem_of.
  - by apply record_instance_not_elem_of.
Qed.

(** X19. When the registry leaves the descriptor as it was handed over, a
    run that returns nil stores under the resolved service ID the list the
    cache held under the empty key, with the new instance ID at its end
    unless that list holds it. *)
Theorem X19_unstamped_descriptor_reads_empty_key w w' t sid inst iid :
  run RegisterMicroserviceInstances w = (w', t, None) →
  CallRegisterServiceInstance sid inst inst (Ok iid) ∈ t →
  cached_instances w' sid
  = if decide (iid ∈ cached_instances w EmptyString)
    then cached_instances w EmptyString
    else cached_instances w EmptyString ++ [iid].
Proof.
  intros Hrun Hin.
  assert (msi_ServiceID inst = EmptyString) as Hkey.
  { destruct (RegisterMicroserviceInstances_submitted _ _ _ _ _ _ _ _ Hrun Hin)
      as (eps & _ & ->).
    unfold attach_DataCenterInfo. by case_decide. }
  unfold cached_instances at 1. unfold cache_Get at 1.
  rewrite (RegisterMicroserviceInstances_stored _ _ _ _ _ _ _ Hrun Hin).
  rewrite lookup_insert_eq, Hkey. cbn [assert_string_slice].
  fold (cached_instances w EmptyString). case_decide.
  - by apply record_instance_elem_of.
  - by apply record_instance_not_elem_of.
Qed.

(** X20. [RegisterMicroserviceInstances] leaves the service side alone: it
    registers no service and no schema, and the configured service
    description, the endpoint override and the runtime service ID are what
    they were. *)
Theorem X20_instance_registration_leaves_service_state w w' t e :
  run RegisterMicroserviceInstances w = (w', t, e) →
  submitted_services t = []
  ∧ schema_registrations t = []
  ∧ ServiceDescription w' = ServiceDescription w
  ∧ InstanceEndpoints w' = InstanceEndpoints w
  ∧ ServiceID (runtime w') = ServiceID (runtime w).
Proof.
  intros Hrun.
  destruct (RegisterMicroserviceInstances_frame _ _ _ _ Hrun)
    as (Hsd & _ & _ & _ & _ & Hov & _ & Hsid & _).
  assert (submitted_services t = [] ∧ schema_registrations t = []) as [??].
  { instance_run w Hrun Hget Hcases.
    - by subst t.
    - by subst t.
    - by destruct Hcases as (-> & _).
    - by destruct Hcases as (-> & _).
    - by destruct Hcases as (-> & _).
    - by destruct Hcases as (-> & _). }
  done.
Qed.

(** X21. Every run starts with the discovery call, made with the runtime
    application ID and the configured name, version and environment; an
    instance is only ever registered under the service ID that call
    resolved. *)
Theorem X21_discovery_comes_first w w' t e :
  run RegisterMicroserviceInstances w = (w', t, e) →
  ∃ res,
    head t = Some (CallGetMicroServiceID (App (runtime w))
                     (Name (ServiceDescription w)) (Version (ServiceDescription w))
                     (Environment (ServiceDescription w)) res)
    ∧ ∀ sid inst inst' rres,
        CallRegisterServiceInstance sid inst inst' rres ∈ t → res = Ok sid.
Proof.
  intros Hrun. instance_run w Hrun Hget Hcases.
  - subst t. eexists. split; [done|]. intros ???? Hin. trace_inv.
  - subst t. eexists. split; [done|]. intros ???? Hin. trace_inv.
  - destruct Hcases as (-> & _). eexists. split; [done|]. intros ???? Hin. trace_inv.
  - destruct Hcases as (-> & _). eexists. split; [done|]. intros ???? Hin. trace_inv.
  - destruct Hcases as (-> & _). eexists. split; [done|]. intros ???? Hin. trace_inv.
  - destruct Hcases as (-> & _). eexists. split; [done|]. intros ???? Hin. trace_inv.
Qed.

(** ** The bookkeeping loop on its own *)

(** X22. The loop with its [isRepeat] flag is a membership test: the list
    stored is the list read when it holds the instance ID, and the list read
    with the instance ID at its end when it does not. *)
Theorem X22_record_instance_by_membership instanceIDs instanceID :
  record_instance instanceIDs instanceID
  = if decide (instanceID ∈ instanceIDs) then instanceIDs
    else instanceIDs ++ [instanceID].
Proof.
  case_decide.
  - by apply record_instance_elem_of.
  - by apply record_instance_not_elem_of.
Qed.

(** X23. Recording an instance ID keeps the list read as a prefix, grows it
    by at most one entry, leaves the ID in the list, and recording the same
    ID again changes nothing. *)
Theorem X23_record_instance_laws instanceIDs instanceID :
  instanceIDs `prefix_of` record_instance instanceIDs instanceID
  ∧ (length (record_instance instanceIDs instanceID) ≤ S (length instanceIDs))%nat
  ∧ instanceID ∈ record_instance instanceIDs instanceID
  ∧ record_instance (record_instance instanceIDs instanceID) instanceID
    = record_instance instanceIDs instanceID.
Proof.
  split_and!.
  - destruct (decide (instanceID ∈ instanceIDs)) as [Hin|Hin].
    + by rewrite record_instance_elem_of.
    + rewrite record_instance_not_elem_of by done. by apply prefix_app_r.
  - destruct (decide (instanceID ∈ instanceIDs)) as [Hin|Hin].
    + rewrite record_instance_elem_of by done. lia.
    + rewrite record_instance_not_elem_of by done. rewrite length_app. cbn. lia.
  - apply record_instance_contains.
  - apply record_instance_idempotent.
Qed.

(** ** The two functions in sequence *)

(** X24. When [RegisterMicroservice] and then
    [RegisterMicroserviceInstances] return nil, the runtime holds the service
    ID the registration returned, which is not empty, the instance ID the
    instance registration returned, and the status [StatusRunning]; the
    instance was looked up under the application ID, name, version and
    environment the service was registered with. *)
Theorem X24_bootstrap w0 w1 w2 t1 t2 :
  run RegisterMicroservice w0 = (w1, t1, None) →
  run RegisterMicroserviceInstances w1 = (w2, t2, None) →
  ∃ ms sid sid' inst inst' iid,
    CallRegisterService ms (Ok sid) ∈ t1
    ∧ CallGetMicroServiceID (ms_AppID ms) (ms_ServiceName ms) (ms_Version ms)
        (ms_Environment ms) (Ok sid') ∈ t2
    ∧ CallRegisterServiceInstance sid' inst inst' (Ok iid) ∈ t2
    ∧ sid ≠ EmptyString
    ∧ ServiceID (runtime w2) = sid
    ∧ InstanceID (runtime w2) = iid
    ∧ InstanceStatus (runtime w2) = StatusRunning.
Proof.
  intros Hrun1 Hrun2.
  destruct (RegisterMicroservice_success _ _ _ Hrun1) as (ms & sid & Hsid & Ht1 & Hrt1).
  destruct (RegisterMicroservice_frame _ _ _ _ Hrun1)
    as (ms' & res' & t' & Ht' & Hms & Hsd & _ & Hrt).
  rewrite Ht1 in Ht'. injection Ht' as <- <- <-.
  destruct Hms as (_ & Happ & Hname & Hver & _ & Henv & _).
  destruct Hsd as (_ & Hn & Hv & He & _). destruct Hrt as (Ha & _).
  destruct (RegisterMicroserviceInstances_success _ _ _ Hrun2)
    as (sid' & inst & inst' & iid & Hin & Hrt2).
  destruct (RegisterMicroserviceInstances_frame _ _ _ _ Hrun2)
    as (_ & _ & _ & _ & _ & _ & _ & Hsid2 & _).
  destruct (RegisterMicroserviceInstances_head _ _ _ _ Hrun2) as (res & Hhead & Hres).
  specialize (Hres _ _ _ _ Hin). subst res.
  exists ms, sid, sid', inst, inst', iid. split_and!; try done.
  - rewrite Ht1. apply list_elem_of_here.
  - rewrite Happ, Hname, Hver, Henv, <- Ha, <- Hn, <- Hv, <- He.
    destruct t2 as [|c t2]; [done|]. injection Hhead as ->. apply list_elem_of_here.
  - by rewrite Hsid2, Hrt1.
  - by rewrite Hrt2.
  - by rewrite Hrt2.
Qed.

End Properties.

(** ** Concrete runs *)

(** C1, where the code departs from it.  The cache holds ["inst-0"] under
    "sid-1"; discovery resolves "sid-1" and the registry returns "inst-1",
    leaving the descriptor as it was handed over.  The run reads the cache
    under the descriptor's [ServiceID], which nothing has set, finds nothing,
    and stores ["inst-1"] under "sid-1": "inst-0" is gone.  Reading under the
    resolved service ID, as the specification describes, gives ["inst-0"; "inst-1"]. *)
Theorem C1_cache_read_under_descriptor_key :
  (run RegisterMicroserviceInstances world_cached).2 = None
  ∧ CallGetMicroServiceID "app1" "svcA" "1.0" EmptyString (Ok "sid-1")
      ∈ (run RegisterMicroserviceInstances world_cached).1.2
  ∧ msi_ServiceID (submitted_instance world_cached) = EmptyString
  ∧ cached_instances world_cached "sid-1" = ["inst-0"]
  ∧ cached_instances (run RegisterMicroserviceInstances world_cached).1.1 "sid-1"
    = ["inst-1"]
  ∧ assert_string_slice
      (cache_Get (spec_cache_update (SelfInstancesCache world_cached)
                    "sid-1" "inst-1") "sid-1")
    = ["inst-0"; "inst-1"].
Proof.
  split_and!; [done| |done..].
  vm_compute. apply list_elem_of_here.
Qed.

Lemma C2_registered_twice_cached_once_witness :
  occurrences "inst-1" (cached_instances registered_twice "sid-1") = 1
  ∧ cached_instances registered_twice "sid-1"
    = cached_instances registered_once "sid-1".
Proof.
  apply (C2_registered_twice_cached_once world_full registered_once registered_twice
           (run RegisterMicroserviceInstances world_full).1.2
           (run RegisterMicroserviceInstances registered_once).1.2
           "sid-1" "inst-1"
           (submitted_instance world_full) (submitted_instance world_full)
           (submitted_instance registered_once) (submitted_instance registered_once)).
  - vm_compute. reflexivity.
  - vm_compute. apply list_elem_of_further, list_elem_of_here.
  - vm_compute. reflexivity.
  - vm_compute. apply list_elem_of_further, list_elem_of_here.
  - vm_compute. reflexivity.
  - vm_compute. apply NoDup_nil_2.
Defined.

(** C3 as stated fails: with scope "app" the submitted descriptor's metadata
    has no allowCrossApp entry, so it does not map the key to "false". *)
Lemma C3_allowCrossApp_counterexample :
  RegistratorScope world_app ≠ ScopeFull
  ∧ ∃ ms, submitted_services (run RegisterMicroservice world_app).1.2 = [ms]
      ∧ ms_Metadata ms !! "allowCrossApp" = None
      ∧ ms_Metadata ms !! "allowCrossApp" ≠ Some FALSE.
Proof.
  split; [done|]. eexists. split; [vm_compute; reflexivity|]. done.
Qed.

Lemma C3_allowCrossApp_by_scope_witness :
  ∃ ms props,
    submitted_services (run RegisterMicroservice world_app).1.2 = [ms]
    ∧ Properties (ServiceDescription (run RegisterMicroservice world_app).1.1)
      = Some props
    ∧ (RegistratorScope world_app = ScopeFull →
       ms_Metadata ms !! "allowCrossApp" = Some TRUE
       ∧ props !! "allowCrossApp" = Some TRUE)
    ∧ (RegistratorScope world_app ≠ ScopeFull →
       ms_Metadata ms !! "allowCrossApp" = None
       ∧ props !! "allowCrossApp" = Some FALSE).
Proof.
  apply (C3_allowCrossApp_by_scope world_app
           (run RegisterMicroservice world_app).1.1
           (run RegisterMicroservice world_app).1.2
           (run RegisterMicroservice world_app).2).
  vm_compute. reflexivity.
Defined.

Lemma C4_empty_service_id_witness :
  (run RegisterMicroservice world_empty_sid).2 = Some errEmptyServiceIDFromRegistry
  ∧ ServiceID (runtime (run RegisterMicroservice world_empty_sid).1.1) = "old-sid"
  ∧ schema_registrations (run RegisterMicroservice world_empty_sid).1.2 = [].
Proof.
  eapply (C4_empty_service_id world_empty_sid
           (run RegisterMicroservice world_empty_sid).1.1
           (run RegisterMicroservice world_empty_sid).1.2
           (run RegisterMicroservice world_empty_sid).2).
  - vm_compute. reflexivity.
  - cbv. apply list_elem_of_here.
Defined.

Lemma C5_default_alias_witness :
  ∃ ms, submitted_services (run RegisterMicroservice world_full).1.2 = [ms]
    ∧ ms_Alias ms = "app1:svcA".
Proof.
  apply (C5_default_alias world_full
           (run RegisterMicroservice world_full).1.1
           (run RegisterMicroservice world_full).1.2
           (run RegisterMicroservice world_full).2).
  vm_compute. reflexivity.
Defined.

Lemma C6_endpoint_override_witness :
  msi_EndpointsMap (submitted_instance world_override)
  = Some {[ "rest" := "192.168.0.7:9090" ]}.
Proof.
  apply (C6_endpoint_override world_override
           (run RegisterMicroserviceInstances world_override).1.1
           (run RegisterMicroserviceInstances world_override).1.2
           (run RegisterMicroserviceInstances world_override).2
           {[ "rest" := "192.168.0.7:9090" ]} "sid-1"
           (submitted_instance world_override) (submitted_instance world_override)
           (Ok "inst-1")).
  - reflexivity.
  - vm_compute. reflexivity.
  - vm_compute. apply list_elem_of_further, list_elem_of_here.
Defined.

Lemma C7_DataCenterInfo_iff_witness :
  is_Some (msi_DataCenterInfo (submitted_instance world_full))
  ↔ "dc1" ≠ EmptyString ∧ "az1" ≠ EmptyString.
Proof.
  apply (C7_DataCenterInfo_iff world_full
           (run RegisterMicroserviceInstances world_full).1.1
           (run RegisterMicroserviceInstances world_full).1.2
           (run RegisterMicroserviceInstances world_full).2
           "sid-1" (submitted_instance world_full) (submitted_instance world_full)
           (Ok "inst-1")).
  - vm_compute. reflexivity.
  - vm_compute. apply list_elem_of_further, list_elem_of_here.
Defined.

Lemma C8_schema_lookup_failure_witness :
  ∃ ms res,
    (run (RegisterMicroservice (packages := no_schema_Packages)) world_full).1.2
    = [CallRegisterService ms res]
    ∧ ms_Schemas ms = []
    ∧ schema_registrations
        (run (RegisterMicroservice (packages := no_schema_Packages)) world_full).1.2
      = []
    ∧ (run (RegisterMicroservice (packages := no_schema_Packages)) world_full).2
      = match res with
        | Err e' => Some e'
        | Ok sid => if decide (sid = EmptyString)
                    then Some errEmptyServiceIDFromRegistry else None
        end.
Proof.
  apply (C8_schema_lookup_failure (packages := no_schema_Packages) world_full
           (run (RegisterMicroservice (packages := no_schema_Packages)) world_full).1.1
           (run (RegisterMicroservice (packages := no_schema_Packages)) world_full).1.2
           (run (RegisterMicroservice (packages := no_schema_Packages)) world_full).2
           (errCollaborator "no schemas file")).
  - reflexivity.
  - vm_compute. reflexivity.
Defined.

Lemma C9_property_update_failure_witness :
  (run RegisterMicroserviceInstances world_update_fails).2
  = Some (errCollaborator "update refused")
  ∧ SelfInstancesCache (run RegisterMicroserviceInstances world_update_fails).1.1
    = SelfInstancesCache world_update_fails
  ∧ InstanceProperties (ServiceDescription world_update_fails)
    = Some {[ "zone" := "blue" ]}
  ∧ (∃ inst inst',
       CallRegisterServiceInstance "sid-1" inst inst' (Ok "inst-1")
         ∈ (run RegisterMicroserviceInstances world_update_fails).1.2)
  ∧ InstanceID (runtime (run RegisterMicroserviceInstances world_update_fails).1.1)
    = "inst-1"
  ∧ InstanceStatus (runtime (run RegisterMicroserviceInstances world_update_fails).1.1)
    = StatusRunning.
Proof.
  apply (C9_property_update_failure world_update_fails
           (run RegisterMicroserviceInstances world_update_fails).1.1
           (run RegisterMicroserviceInstances world_update_fails).1.2
           (run RegisterMicroserviceInstances world_update_fails).2
           "sid-1" "inst-1" {[ "zone" := "blue" ]}
           (errCollaborator "update refused")).
  - vm_compute. reflexivity.
  - vm_compute. do 2 apply list_elem_of_further. apply list_elem_of_here.
Defined.

Lemma C10_region_is_name_witness :
  dci_Region {| dci_Name := "dc1"; dci_Region := "dc1"; dci_AvailableZone := "az1" |}
  = dci_Name {| dci_Name := "dc1"; dci_Region := "dc1"; dci_AvailableZone := "az1" |}
  ∧ dci_Name {| dci_Name := "dc1"; dci_Region := "dc1"; dci_AvailableZone := "az1" |}
    = dc_Name (DataCenter world_full)
  ∧ dci_AvailableZone
      {| dci_Name := "dc1"; dci_Region := "dc1"; dci_AvailableZone := "az1" |}
    = dc_AvailableZone (DataCenter world_full).
Proof.
  apply (C10_region_is_name world_full
           (run RegisterMicroserviceInstances world_full).1.1
           (run RegisterMicroserviceInstances world_full).1.2
           (run RegisterMicroserviceInstances world_full).2
           "sid-1" (submitted_instance world_full) (submitted_instance world_full)
           (Ok "inst-1")).
  - vm_compute. reflexivity.
  - vm_compute. apply list_elem_of_further, list_elem_of_here.
  - vm_compute. reflexivity.
Defined.

(** ** Further concrete runs *)

Lemma X1_registration_error_returned_witness :
  service_run_register_fails.2 = Some (errCollaborator "registry unreachable")
  ∧ service_run_register_fails.1.2 = [CallRegisterService (first_service service_run_register_fails.1.2)
                   (Err (errCollaborator "registry unreachable"))]
  ∧ runtime service_run_register_fails.1.1 = runtime world_register_fails.
Proof.
  apply (X1_registration_error_returned world_register_fails
           service_run_register_fails.1.1
           service_run_register_fails.1.2
           service_run_register_fails.2
           (first_service service_run_register_fails.1.2)
           (errCollaborator "registry unreachable")).
  - vm_compute. reflexivity.
  - vm_compute. apply list_elem_of_here.
Defined.

Lemma X2_schemas_registered_in_order_witness :
  service_run_schemas_fail_two_schema.2 = None
  ∧ ServiceID (runtime service_run_schemas_fail_two_schema.1.1) = "sid-1"
  ∧ ms_Schemas (first_service service_run_schemas_fail_two_schema.1.2)
    = match GetSchemaIDs (Packages := two_schema_Packages)
              (Name (ServiceDescription world_schemas_fail)) with
      | Ok ids => ids
      | Err _ => []
      end
  ∧ service_run_schemas_fail_two_schema.1.2
    = CallRegisterService (first_service service_run_schemas_fail_two_schema.1.2) (Ok "sid-1") ::
        ((λ schemaID,
            CallAddSchemas "sid-1" schemaID
              (default EmptyString
                 (DefaultSchemaIDsMap (Packages := two_schema_Packages) !! schemaID)))
           <$> ms_Schemas (first_service service_run_schemas_fail_two_schema.1.2)).
Proof.
  apply (X2_schemas_registered_in_order (packages := two_schema_Packages) world_schemas_fail
           service_run_schemas_fail_two_schema.1.1
           service_run_schemas_fail_two_schema.1.2
           service_run_schemas_fail_two_schema.2
           (first_service service_run_schemas_fail_two_schema.1.2)
           "sid-1").
  - vm_compute. reflexivity.
  - vm_compute. apply list_elem_of_here.
  - done.
Defined.

Lemma X3_level_defaulted_witness :
  ∃ ms, submitted_services service_run_full.1.2 = [ms]
    ∧ Level (ServiceDescription service_run_full.1.1) = ms_Level ms
    ∧ (Level (ServiceDescription world_full) = EmptyString → ms_Level ms = DefaultLevel)
    ∧ (Level (ServiceDescription world_full) ≠ EmptyString →
       ms_Level ms = Level (ServiceDescription world_full)).
Proof.
  apply (X3_level_defaulted world_full
           service_run_full.1.1
           service_run_full.1.2
           service_run_full.2).
  - vm_compute. reflexivity.
Defined.

Lemma X4_configured_properties_kept_witness :
  ∃ props, Properties (ServiceDescription service_run_configured.1.1) = Some props
    ∧ props !! "team"
      = default ∅ (Properties (ServiceDescription world_configured)) !! "team".
Proof.
  apply (X4_configured_properties_kept world_configured
           service_run_configured.1.1
           service_run_configured.1.2
           service_run_configured.2
           "team").
  - vm_compute. reflexivity.
  - done.
Defined.

Lemma X5_paths_copied_in_order_witness :
  ∃ ms, submitted_services service_run_configured.1.2 = [ms]
    ∧ ms_Paths ms
      = (λ svcPath, {| Path := cfg_Path svcPath; Property := cfg_Property svcPath |})
          <$> ServicePaths (ServiceDescription world_configured).
Proof.
  apply (X5_paths_copied_in_order world_configured
           service_run_configured.1.1
           service_run_configured.1.2
           service_run_configured.2).
  - vm_compute. reflexivity.
Defined.

Lemma X6_reregistration_carries_service_id_witness :
  submitted_services service_run_service_registered.1.2
  = [ {| ms_ServiceID := "sid-1";
         ms_AppID := ms_AppID (first_service service_run_full.1.2);
         ms_ServiceName := ms_ServiceName (first_service service_run_full.1.2);
         ms_Version := ms_Version (first_service service_run_full.1.2);
         ms_Paths := ms_Paths (first_service service_run_full.1.2);
         ms_Environment := ms_Environment (first_service service_run_full.1.2);
         ms_Status := ms_Status (first_service service_run_full.1.2);
         ms_Level := ms_Level (first_service service_run_full.1.2);
         ms_Schemas := ms_Schemas (first_service service_run_full.1.2);
         ms_Framework := ms_Framework (first_service service_run_full.1.2);
         ms_RegisterBy := ms_RegisterBy (first_service service_run_full.1.2);
         ms_Metadata := ms_Metadata (first_service service_run_full.1.2);
         ms_Alias := ms_Alias (first_service service_run_full.1.2) |} ].
Proof.
  apply (X6_reregistration_carries_service_id world_full
           service_registered
           service_run_service_registered.1.1
           service_run_full.1.2
           service_run_service_registered.1.2
           service_run_service_registered.2
           (first_service service_run_full.1.2)
           "sid-1").
  - vm_compute. reflexivity.
  - vm_compute. apply list_elem_of_here.
  - vm_compute. reflexivity.
Defined.

Lemma X7_service_registration_leaves_instance_state_witness :
  submitted_instances service_run_other_service.1.2 = []
  ∧ SelfInstancesCache service_run_other_service.1.1 = SelfInstancesCache world_other_service
  ∧ InstanceEndpoints service_run_other_service.1.1 = InstanceEndpoints world_other_service
  ∧ InstanceID (runtime service_run_other_service.1.1) = InstanceID (runtime world_other_service)
  ∧ InstanceStatus (runtime service_run_other_service.1.1) = InstanceStatus (runtime world_other_service)
  ∧ microServiceDependencies service_run_other_service.1.1 = Some emptyMicroServiceDependency.
Proof.
  apply (X7_service_registration_leaves_instance_state world_other_service
           service_run_other_service.1.1
           service_run_other_service.1.2
           service_run_other_service.2).
  - vm_compute. reflexivity.
Defined.

Lemma X25_service_descriptor_fields_witness :
  ∃ ms, submitted_services service_run_configured.1.2 = [ms]
    ∧ ms_ServiceID ms = ServiceID (runtime world_configured)
    ∧ ms_AppID ms = App (runtime world_configured)
    ∧ ms_ServiceName ms = Name (ServiceDescription world_configured)
    ∧ ms_Version ms = Version (ServiceDescription world_configured)
    ∧ ms_Environment ms = Environment (ServiceDescription world_configured)
    ∧ ms_Status ms = DefaultStatus
    ∧ ms_Framework ms = {| fw_Version := mf_Version NewFramework;
                           fw_Name := mf_Name NewFramework |}
    ∧ ms_RegisterBy ms = mf_Register NewFramework.
Proof.
  apply (X25_service_descriptor_fields world_configured
           service_run_configured.1.1
           service_run_configured.1.2
           service_run_configured.2).
  - vm_compute. reflexivity.
Defined.

Lemma X8_discovery_error_returned_witness :
  instances_run_discovery_fails.2 = Some (errCollaborator "service not found")
  ∧ instances_run_discovery_fails.1.2 = [CallGetMicroServiceID "app1" "svcA" "1.0" EmptyString
                  (Err (errCollaborator "service not found"))]
  ∧ runtime instances_run_discovery_fails.1.1 = runtime world_discovery_fails
  ∧ SelfInstancesCache instances_run_discovery_fails.1.1 = SelfInstancesCache world_discovery_fails.
Proof.
  apply (X8_discovery_error_returned world_discovery_fails
           instances_run_discovery_fails.1.1
           instances_run_discovery_fails.1.2
           instances_run_discovery_fails.2
           "app1"
           "svcA"
           "1.0"
           EmptyString
           (errCollaborator "service not found")).
  - vm_compute. reflexivity.
  - vm_compute. apply list_elem_of_here.
Defined.

Lemma X9_endpoint_map_error_returned_witness :
  instances_run_override_no_endpoint.2 = Some (errCollaborator "no listen address")
  ∧ instances_run_override_no_endpoint.1.2 = [CallGetMicroServiceID "app1" "svcA" "1.0" EmptyString (Ok "sid-1")]
  ∧ runtime instances_run_override_no_endpoint.1.1 = runtime world_override
  ∧ SelfInstancesCache instances_run_override_no_endpoint.1.1 = SelfInstancesCache world_override.
Proof.
  apply (X9_endpoint_map_error_returned (packages := no_endpoint_Packages) world_override
           instances_run_override_no_endpoint.1.1
           instances_run_override_no_endpoint.1.2
           instances_run_override_no_endpoint.2
           "app1"
           "svcA"
           "1.0"
           EmptyString
           "sid-1"
           (errCollaborator "no listen address")).
  - reflexivity.
  - vm_compute. reflexivity.
  - vm_compute. apply list_elem_of_here.
Defined.

Lemma X10_instance_registration_error_returned_witness :
  instances_run_instance_fails.2 = Some (errCollaborator "instance refused")
  ∧ runtime instances_run_instance_fails.1.1 = runtime world_instance_fails
  ∧ SelfInstancesCache instances_run_instance_fails.1.1 = SelfInstancesCache world_instance_fails
  ∧ property_updates instances_run_instance_fails.1.2 = [].
Proof.
  apply (X10_instance_registration_error_returned world_instance_fails
           instances_run_instance_fails.1.1
           instances_run_instance_fails.1.2
           instances_run_instance_fails.2
           "sid-1"
           (first_instance instances_run_instance_fails.1.2)
           (first_left_instance instances_run_instance_fails.1.2)
           (errCollaborator "instance refused")).
  - vm_compute. reflexivity.
  - vm_compute. apply list_elem_of_further. apply list_elem_of_here.
Defined.

Lemma X11_computed_endpoints_submitted_witness :
  MakeEndpointMap (CseProtocols world_full) = Ok (msi_EndpointsMap (first_instance instances_run_full.1.2)).
Proof.
  apply (X11_computed_endpoints_submitted world_full
           instances_run_full.1.1
           instances_run_full.1.2
           instances_run_full.2
           "sid-1"
           (first_instance instances_run_full.1.2)
           (first_left_instance instances_run_full.1.2)
           (Ok "inst-1")).
  - reflexivity.
  - vm_compute. reflexivity.
  - vm_compute. apply list_elem_of_further. apply list_elem_of_here.
Defined.

Lemma X12_instance_descriptor_fields_witness :
  msi_ServiceID (first_instance instances_run_full.1.2) = EmptyString
  ∧ msi_HostName (first_instance instances_run_full.1.2) = HostName (runtime world_full)
  ∧ msi_Status (first_instance instances_run_full.1.2) = DefaultStatus
  ∧ msi_Metadata (first_instance instances_run_full.1.2) = {[ "nodeIP" := NodeIP world_full ]}.
Proof.
  apply (X12_instance_descriptor_fields world_full
           instances_run_full.1.1
           instances_run_full.1.2
           instances_run_full.2
           "sid-1"
           (first_instance instances_run_full.1.2)
           (first_left_instance instances_run_full.1.2)
           (Ok "inst-1")).
  - vm_compute. reflexivity.
  - vm_compute. apply list_elem_of_further. apply list_elem_of_here.
Defined.

Lemma X13_no_instance_properties_no_update_witness :
  property_updates instances_run_full.1.2 = [].
Proof.
  apply (X13_no_instance_properties_no_update world_full
           instances_run_full.1.1
           instances_run_full.1.2
           instances_run_full.2).
  - reflexivity.
  - vm_compute. reflexivity.
Defined.

Lemma X14_update_follows_registration_witness :
  InstanceProperties (ServiceDescription world_configured) = Some {[ "zone" := "blue" ]}
  ∧ ∃ inst inst',
      instances_run_configured.1.2
      = [CallGetMicroServiceID (App (runtime world_configured))
           (Name (ServiceDescription world_configured))
           (Version (ServiceDescription world_configured))
           (Environment (ServiceDescription world_configured)) (Ok "sid-1");
         CallRegisterServiceInstance "sid-1" inst inst' (Ok "inst-1");
         CallUpdateMicroServiceInstanceProperties "sid-1" "inst-1"
           {[ "zone" := "blue" ]} None].
Proof.
  apply (X14_update_follows_registration world_configured
           instances_run_configured.1.1
           instances_run_configured.1.2
           instances_run_configured.2
           "sid-1"
           "inst-1"
           {[ "zone" := "blue" ]}
           None).
  - vm_compute. reflexivity.
  - vm_compute. apply list_elem_of_further. apply list_elem_of_further. apply list_elem_of_here.
Defined.

Lemma X15_success_records_instance_witness :
  ∃ sid inst inst' iid,
    CallRegisterServiceInstance sid inst inst' (Ok iid) ∈ instances_run_configured.1.2
    ∧ InstanceID (runtime instances_run_configured.1.1) = iid
    ∧ InstanceStatus (runtime instances_run_configured.1.1) = StatusRunning
    ∧ iid ∈ cached_instances instances_run_configured.1.1 sid.
Proof.
  apply (X15_success_records_instance world_configured
           instances_run_configured.1.1
           instances_run_configured.1.2).
  - vm_compute. reflexivity.
Defined.

Lemma X17_stored_list_duplicate_free_witness :
  NoDup (cached_instances instances_run_stamping.1.1 "sid-1").
Proof.
  apply (X17_stored_list_duplicate_free world_stamping
           instances_run_stamping.1.1
           instances_run_stamping.1.2
           "sid-1"
           (first_instance instances_run_stamping.1.2)
           (first_left_instance instances_run_stamping.1.2)
           "inst-1").
  - vm_compute. reflexivity.
  - vm_compute. apply list_elem_of_further. apply list_elem_of_here.
  - vm_compute. apply NoDup_singleton.
Defined.

Lemma X18_stamped_descriptor_keeps_cached_witness :
  cached_instances instances_run_stamping.1.1 "sid-1"
  = if decide ("inst-1" ∈ cached_instances world_stamping "sid-1")
    then cached_instances world_stamping "sid-1"
    else cached_instances world_stamping "sid-1" ++ ["inst-1"].
Proof.
  apply (X18_stamped_descriptor_keeps_cached world_stamping
           instances_run_stamping.1.1
           instances_run_stamping.1.2
           "sid-1"
           (first_instance instances_run_stamping.1.2)
           (first_left_instance instances_run_stamping.1.2)
           "inst-1").
  - vm_compute. reflexivity.
  - vm_compute. apply list_elem_of_further. apply list_elem_of_here.
  - reflexivity.
Defined.

Lemma X19_unstamped_descriptor_reads_empty_key_witness :
  cached_instances instances_run_cached.1.1 "sid-1"
  = if decide ("inst-1" ∈ cached_instances world_cached EmptyString)
    then cached_instances world_cached EmptyString
    else cached_instances world_cached EmptyString ++ ["inst-1"].
Proof.
  apply (X19_unstamped_descriptor_reads_empty_key world_cached
           instances_run_cached.1.1
           instances_run_cached.1.2
           "sid-1"
           (first_instance instances_run_cached.1.2)
           "inst-1").
  - vm_compute. reflexivity.
  - vm_compute. apply list_elem_of_further. apply list_elem_of_here.
Defined.

Lemma X20_instance_registration_leaves_service_state_witness :
  submitted_services instances_run_configured.1.2 = []
  ∧ schema_registrations instances_run_configured.1.2 = []
  ∧ ServiceDescription instances_run_configured.1.1 = ServiceDescription world_configured
  ∧ InstanceEndpoints instances_run_configured.1.1 = InstanceEndpoints world_configured
  ∧ ServiceID (runtime instances_run_configured.1.1) = ServiceID (runtime world_configured).
Proof.
  apply (X20_instance_registration_leaves_service_state world_configured
           instances_run_configured.1.1
           instances_run_configured.1.2
           instances_run_configured.2).
  - vm_compute. reflexivity.
Defined.

Lemma X21_discovery_comes_first_witness :
  ∃ res,
    head instances_run_configured.1.2
    = Some (CallGetMicroServiceID (App (runtime world_configured))
              (Name (ServiceDescription world_configured))
              (Version (ServiceDescription world_configured))
              (Environment (ServiceDescription world_configured)) res)
    ∧ ∀ sid inst inst' rres,
        CallRegisterServiceInstance sid inst inst' rres ∈ instances_run_configured.1.2 → res = Ok sid.
Proof.
  apply (X21_discovery_comes_first world_configured
           instances_run_configured.1.1
           instances_run_configured.1.2
           instances_run_configured.2).
  - vm_compute. reflexivity.
Defined.

Lemma X24_bootstrap_witness :
  ∃ ms sid sid' inst inst' iid,
    CallRegisterService ms (Ok sid) ∈ service_run_full.1.2
    ∧ CallGetMicroServiceID (ms_AppID ms) (ms_ServiceName ms) (ms_Version ms)
        (ms_Environment ms) (Ok sid') ∈ instances_run_service_registered.1.2
    ∧ CallRegisterServiceInstance sid' inst inst' (Ok iid) ∈ instances_run_service_registered.1.2
    ∧ sid ≠ EmptyString
    ∧ ServiceID (runtime bootstrapped) = sid
    ∧ InstanceID (runtime bootstrapped) = iid
    ∧ InstanceStatus (runtime bootstrapped) = StatusRunning.
Proof.
  apply (X24_bootstrap world_full
           service_registered
           bootstrapped
           service_run_full.1.2
           instances_run_service_registered.1.2).
  - vm_compute. reflexivity.
  - vm_compute. reflexivity.
Defined.
